(** * Mimic: the capture-and-compile pipeline of [mimic/main.py]

    A shallow embedding of the recorder (click and key handlers, keystroke
    buffer, capture loop, teardown) and of the compilation front end
    (screenshot sampling, cost estimate, model profiles, [compile_recording]),
    with the properties the specification states about them.

    Conventions of the model.
    - Python [str] values are [string]s; a key press delivers one character
      ([ascii]); [str.lower] is the ASCII case folding.
    - [time.time() - start_time], a float number of seconds, is an exact
      rational ([Qc]): only its comparison with 0 and with the 60 s limit
      is ever used.
    - The costs of [estimate_cost] are given twice: as the exact rationals
      the formula denotes, which the console messages of the model carry,
      and, in [estimate_cost_binary64], as the IEEE 754 doubles that lines
      736-738 compute.
    - A capture or a save that raises is an event of its own
      ([EvCaptureError]); the capture loop catches only Ctrl+C.
    - Each handler runs to completion before the next one starts; the
      interleaving of the listener threads is outside the model.
    - Files hold values of the type the program writes into them; the
      configuration file is taken as [load_config()] returns it, except in
      [get_model_config_from_file], which starts from the file itself and
      so covers a file that does not parse. *)

From Stdlib Require Import Ascii String QArith Qabs Qcanon.
From Stdlib Require Floats.SpecFloat.
From stdpp Require Import base numbers list strings gmap sorting pretty.

Local Open Scope string_scope.

(** ** Strings *)

Module Str.

(** One character of [str.lower()]. *)
Definition lower_char (c : ascii) : ascii :=
  let n := nat_of_ascii c in
  if (65 <=? n)%nat && (n <=? 90)%nat then ascii_of_nat (n + 32) else c.

(** [s.lower()] *)
Fixpoint lower (s : string) : string :=
  match s with
  | EmptyString => EmptyString
  | String c s' => String (lower_char c) (lower s')
  end.

(** [s.startswith(p)], the test at one position of [p in s]. *)
Fixpoint starts_with (p s : string) : bool :=
  match p, s with
  | EmptyString, _ => true
  | String _ _, EmptyString => false
  | String a p', String b s' => if Ascii.eqb a b then starts_with p' s' else false
  end.

(** [p in s] on two strings: [p] occurs in [s] as a substring. *)
Fixpoint contains (p s : string) : bool :=
  starts_with p s ||
  match s with
  | EmptyString => false
  | String _ s' => contains p s'
  end.

(** [s[:n]] *)
Fixpoint slice_to (n : nat) (s : string) : string :=
  match n, s with
  | 0%nat, _ => EmptyString
  | S _, EmptyString => EmptyString
  | S n', String c s' => String c (slice_to n' s')
  end.

(** [str.join] of the empty separator over a list of one-character strings. *)
Fixpoint join (cs : list ascii) : string :=
  match cs with
  | [] => EmptyString
  | c :: cs' => String c (join cs')
  end.

(** Truthiness of an optional string: [None] and the empty string are falsy. *)
Definition truthy (o : option string) : bool :=
  match o with
  | Some (String _ _) => true
  | _ => false
  end.

(** [o or d] where [o] is a string or [None]. *)
Definition or_else (o : option string) (d : string) : string :=
  if truthy o then default d o else d.

End Str.

(** The declarative reading of "[p] is a substring of [s]". *)
Definition substring_of (p s : string) : Prop :=
  ∃ a b : string, s = a ++ p ++ b.

(** ** Sensitivity classifier *)

Definition SENSITIVE_KEYWORDS : list string :=
  ["password"; "secret"; "token"; "key"; "credit"; "ssn"; "bank"].

Definition REDACTED : string := "[REDACTED]".

(** The loop [for keyword in SENSITIVE_KEYWORDS: if keyword in s: ...] of
    [flush_keystroke_buffer], on the folded text. *)
Definition has_sensitive_keyword (s : string) : bool :=
  existsb (λ keyword, Str.contains keyword s) SENSITIVE_KEYWORDS.

(** ** Actions and the recorder state *)

(** The dictionary that [get_element_at_point] returns. *)
Record Element := mkElement {
  role : option string;
  name : option string;
  description : string;
  parent : string
}.

(** One entry of the action log.  [sensitive] is [true] exactly when the
    dictionary has the key ["sensitive"] (it is only ever set to [True]). *)
Inductive Action :=
| Click (x y : Z) (button : string) (timestamp : Qc)
        (element : option Element) (sensitive : bool)
| TypedText (text : string) (len : nat) (timestamp : Qc) (sensitive : bool)
| SpecialKey (key : string) (timestamp : Qc).

(** What the handlers print, by message rather than by rendered line. *)
Inductive Msg :=
| MsgClick (x y : Z)
| MsgClickElement (x y : Z) (role desc : option string) (sensitive : bool)
| MsgSensitiveWarning
| MsgTyped (display_text : string) (sensitive : bool)
| MsgSpecial (key_name : string)
| MsgUnknownModel (model_name : string)
| MsgError (what : string)
| MsgCompiling (task : string) (selected total n_actions : nat)
| MsgCost (total_cost : Qc) (input_tokens : Z) (input_cost : Qc)
          (output_tokens : Z) (output_cost : Qc)
| MsgCostOnlyHint
| MsgSending (model_id : string)
| MsgSaved (file : string)
| MsgInstalled (dir : string)
| MsgNotInstalled (reason : string)
| MsgScreenshot (count : nat) (elapsed : Qc) (blurred : bool)
| MsgStopSignal
| MsgAutoStop
| MsgInterrupted
| MsgRecordingComplete (screenshots n_actions : nat).

(** The variables that the closures of [cmd_start] share. *)
Record Recorder := mkRecorder {
  actions : list Action;
  sensitive_warning_shown : bool;
  keystroke_buffer : list ascii;
  buffer_start_time : option Qc;
  console : list Msg
}.

Definition new_recorder : Recorder :=
  mkRecorder [] false [] None [].

Definition say (m : Msg) (r : Recorder) : Recorder :=
  mkRecorder (actions r) (sensitive_warning_shown r) (keystroke_buffer r)
             (buffer_start_time r) (console r ++ [m]).

Definition append_action (a : Action) (r : Recorder) : Recorder :=
  mkRecorder (actions r ++ [a]) (sensitive_warning_shown r) (keystroke_buffer r)
             (buffer_start_time r) (console r).

(** ** Click handler *)

(** The keyword loop of [on_click] over the folded name and role. *)
Definition click_keyword_hit (elem_name elem_role : string) : bool :=
  existsb (λ keyword, Str.contains keyword elem_name || Str.contains keyword elem_role)
          SENSITIVE_KEYWORDS.

(** [elem_role in ("password text", "password", "secret")] *)
Definition password_role (elem_role : string) : bool :=
  bool_decide (elem_role ∈ ["password text"; "password"; "secret"]).

Definition click_is_sensitive (e : Element) : bool :=
  let elem_name := Str.lower (Str.or_else (name e) EmptyString) in
  let elem_role := Str.lower (Str.or_else (role e) EmptyString) in
  click_keyword_hit elem_name elem_role || password_role elem_role.

(** [on_click(x, y, button, pressed)].  [now] is the clock reading
    [time.time() - start_time]; [element_info] is the answer of
    [get_element_at_point(x, y)]; [button] is [str(button)]. *)
Definition on_click (now : Qc) (element_info : option Element)
    (x y : Z) (button : string) (pressed : bool) (r : Recorder) : Recorder :=
  if pressed then
    match element_info with
    | Some e =>
        let elem_desc := if Str.truthy (name e) then name e else role e in
        let is_sensitive := click_is_sensitive e in
        let r1 := say (MsgClickElement x y (role e) elem_desc is_sensitive) r in
        let r2 :=
          if is_sensitive && negb (sensitive_warning_shown r1) then
            let r' := say MsgSensitiveWarning r1 in
            mkRecorder (actions r') true (keystroke_buffer r')
                       (buffer_start_time r') (console r')
          else r1 in
        append_action (Click x y button now (Some e) is_sensitive) r2
    | None =>
        append_action (Click x y button now None false) (say (MsgClick x y) r)
    end
  else r.

(** ** Keystroke aggregator *)

(** [buffer_start_time[0] or (time.time() - start_time)]: a stored reading
    of exactly 0 is falsy, like [None]. *)
Definition start_or_now (start : option Qc) (now : Qc) : Qc :=
  match start with
  | Some t => if decide (t = 0%Qc) then now else t
  | None => now
  end.

(** [typed_text if len(typed_text) <= 20 else typed_text[:17] + "..."] *)
Definition preview (typed_text : string) : string :=
  if (String.length typed_text <=? 20)%nat then typed_text
  else Str.slice_to 17 typed_text ++ "...".

(** [flush_keystroke_buffer()]; [now] is the clock reading it would take. *)
Definition flush_keystroke_buffer (now : Qc) (r : Recorder) : Recorder :=
  match keystroke_buffer r with
  | [] => r
  | _ :: _ =>
      let typed_text := Str.join (keystroke_buffer r) in
      let timestamp := start_or_now (buffer_start_time r) now in
      let is_sensitive := has_sensitive_keyword (Str.lower typed_text) in
      let display_text := if is_sensitive then REDACTED else preview typed_text in
      let stored_text := if is_sensitive then REDACTED else typed_text in
      let action := TypedText stored_text (String.length typed_text) timestamp is_sensitive in
      mkRecorder (actions r ++ [action]) (sensitive_warning_shown r) [] None
                 (console r ++ [MsgTyped display_text is_sensitive])
  end.

(** What a key listener hands to [on_key_press]: a [KeyCode], whose [char]
    may be [None], or a member of the [Key] enumeration, which has no
    [char] attribute and is printed as [str(key)]. *)
Inductive Key :=
| KeyCode (char : option ascii)
| KeyEnum (key_name : string).

Definition noisy_keys : list string :=
  ["Key.enter"; "Key.tab"; "Key.escape"; "Key.backspace"].

(** [on_key_press(key)].  [now_flush] is the clock as the flush reads it,
    [now] the handler's own reading. *)
Definition on_key_press (now_flush now : Qc) (key : Key) (r : Recorder) : Recorder :=
  match key with
  | KeyCode (Some key_char) =>
      let start :=
        match buffer_start_time r with
        | None => Some now
        | Some t => Some t
        end in
      mkRecorder (actions r) (sensitive_warning_shown r)
                 (keystroke_buffer r ++ [key_char]) start (console r)
  | KeyCode None => r
  | KeyEnum key_name =>
      let r1 := flush_keystroke_buffer now_flush r in
      let r2 := append_action (SpecialKey key_name now) r1 in
      if bool_decide (key_name ∈ noisy_keys) then say (MsgSpecial key_name) r2 else r2
  end.

(** A run of character keys, each with the clock reading of its press. *)
Definition type_chars (keys : list (Qc * ascii)) (r : Recorder) : Recorder :=
  foldl (λ acc k, on_key_press k.1 k.1 (KeyCode (Some k.2)) acc) r keys.

(** ** Screenshot sampler *)

(** [l[::step]] for [step >= 1]: [k] elements are still to be skipped
    before the next one is taken.  ([compile_recording] only slices with
    [step = len // 25 >= 1]; Python rejects a step of 0.) *)
Fixpoint stride_from {A} (step k : nat) (l : list A) : list A :=
  match l with
  | [] => []
  | x :: l' =>
      match k with
      | O => x :: stride_from step (step - 1) l'
      | S k' => stride_from step k' l'
      end
  end.

Definition slice_step {A} (step : nat) (l : list A) : list A :=
  stride_from step 0 l.

Definition max_screenshots : nat := 25.

(** Lines 782-787 of [compile_recording]. *)
Definition sample_screenshots {A} (screenshot_files : list A) : list A :=
  if (max_screenshots <? length screenshot_files)%nat then
    let step := (length screenshot_files / max_screenshots)%nat in
    take max_screenshots (slice_step step screenshot_files)
  else screenshot_files.

(** ** Cost estimate *)

(** The estimate with its costs as exact rationals: the values the
    formula of lines 730-738 denotes.  The doubles that the interpreter
    computes are those of [estimate_cost_binary64] below. *)
Record CostEstimate := mkCost {
  input_tokens : Z;
  output_tokens : Z;
  input_cost : Qc;
  output_cost : Qc;
  total_cost : Qc
}.

Definition estimate_cost (num_screenshots num_actions : Z) : CostEstimate :=
  let image_tokens := (num_screenshots * 1600)%Z in
  let text_tokens := (500 + num_actions * 20)%Z in
  let input_tokens := (image_tokens + text_tokens)%Z in
  let output_tokens := 2000%Z in
  let input_cost := (Qc_of_Z input_tokens / Qc_of_Z 1000000 * Qc_of_Z 3)%Qc in
  let output_cost := (Qc_of_Z output_tokens / Qc_of_Z 1000000 * Qc_of_Z 15)%Qc in
  let total_cost := (input_cost + output_cost)%Qc in
  mkCost input_tokens output_tokens input_cost output_cost total_cost.

(** ** The cost estimate in binary64

    Lines 736-738 are float arithmetic.  [estimate_cost] above carries the
    exact values of the formula; [estimate_cost_binary64] follows the
    interpreter operation by operation in IEEE 754 binary64 (53 bits of
    precision, rounding to nearest, ties to even), with the operations of
    the standard library's executable specification of floats. *)

Module B64.

Definition float : Type := SpecFloat.spec_float.
Definition prec : Z := 53.
Definition emax : Z := 1024.

(** An [int] as operand of a true division. *)
Definition of_int (z : Z) : float :=
  match z with
  | Z0 => SpecFloat.S754_zero false
  | Zpos p => SpecFloat.S754_finite false p 0
  | Zneg p => SpecFloat.S754_finite true p 0
  end.

(** [a / b] on two [int]s: the double nearest to the exact quotient. *)
Definition truediv (a b : Z) : float :=
  SpecFloat.SFdiv prec emax (of_int a) (of_int b).

(** The float literals [3.00] and [15.00]. *)
Definition literal (z : Z) : float :=
  SpecFloat.binary_normalize prec emax z 0 false.

Definition mul (x y : float) : float := SpecFloat.SFmul prec emax x y.
Definition add (x y : float) : float := SpecFloat.SFadd prec emax x y.

(** The rational number a finite double stands for. *)
Definition to_Q (x : float) : Q :=
  match x with
  | SpecFloat.S754_finite s m e =>
      let v :=
        match e with
        | Zneg p => Qmake (Zpos m) (2 ^ p)
        | _ => inject_Z (Zpos m * 2 ^ e)
        end in
      if s then Qopp v else v
  | _ => 0%Q
  end.

End B64.

Record FloatEstimate := mkFloatEstimate {
  f_input_tokens : Z;
  f_output_tokens : Z;
  f_input_cost : B64.float;
  f_output_cost : B64.float;
  f_total_cost : B64.float
}.

(** [estimate_cost(num_screenshots, num_actions)], lines 730-746. *)
Definition estimate_cost_binary64 (num_screenshots num_actions : Z) : FloatEstimate :=
  let image_tokens := (num_screenshots * 1600)%Z in
  let text_tokens := (500 + num_actions * 20)%Z in
  let input_tokens := (image_tokens + text_tokens)%Z in
  let output_tokens := 2000%Z in
  let input_cost := B64.mul (B64.truediv input_tokens 1000000) (B64.literal 3) in
  let output_cost := B64.mul (B64.truediv output_tokens 1000000) (B64.literal 15) in
  let total_cost := B64.add input_cost output_cost in
  mkFloatEstimate input_tokens output_tokens input_cost output_cost total_cost.

(** The distance between the total that is computed and the exact value
    of the formula is at most [bound]. *)
Definition total_within (bound : Q) (num_screenshots num_actions : Z) : bool :=
  Qle_bool
    (Qabs (B64.to_Q (f_total_cost (estimate_cost_binary64 num_screenshots num_actions)) -
           Qcanon.this (total_cost (estimate_cost num_screenshots num_actions))))
    bound.

(** ** Model profiles *)

Record ModelProfile := mkProfile {
  provider : string;
  model_id : string;
  profile_description : string
}.

Definition sonnet_profile : ModelProfile :=
  mkProfile "anthropic" "claude-sonnet-4-5-20250929"
            "Claude Sonnet 4.5 - Fast and capable (default)".
Definition opus_profile : ModelProfile :=
  mkProfile "anthropic" "claude-opus-4-5-20250114"
            "Claude Opus 4.5 - Most capable, higher cost".
Definition haiku_profile : ModelProfile :=
  mkProfile "anthropic" "claude-haiku-3-5-20241022"
            "Claude Haiku 3.5 - Fastest, lowest cost".

Definition SUPPORTED_MODELS : gmap string ModelProfile :=
  <["sonnet" := sonnet_profile]>
  (<["opus" := opus_profile]>
  (<["haiku" := haiku_profile]> ∅)).

Definition DEFAULT_MODEL : string := "sonnet".

(** [~/.mimic_config.json] as [load_config()] returns it; an absent file
    is the record without entries. *)
Record Config := mkConfig {
  cfg_model : option string;
  cfg_anthropic_api_key : option string;
  cfg_moltbot_skills_dir : option string
}.

Definition empty_config : Config := mkConfig None None None.

(** [get_model_config(model_name)], given the process environment and the
    configuration file.  The result is the profile, or [None] for the
    [KeyError] of the final subscript, together with what was printed. *)
Definition get_model_config (environ : gmap string string) (config : Config)
    (model_name : option string) : option ModelProfile * list Msg :=
  let n1 := if Str.truthy model_name then model_name else environ !! "MIMIC_MODEL" in
  let n2 := if Str.truthy n1 then n1 else Some (default DEFAULT_MODEL (cfg_model config)) in
  let n3 := if Str.truthy n2 then default DEFAULT_MODEL n2 else DEFAULT_MODEL in
  let lowered := Str.lower n3 in
  match SUPPORTED_MODELS !! lowered with
  | Some _ => (SUPPORTED_MODELS !! lowered, [])
  | None => (SUPPORTED_MODELS !! DEFAULT_MODEL, [MsgUnknownModel lowered])
  end.

(** ** Results of fallible steps *)

(** A step either yields a value or raises the named Python exception. *)
Inductive res (A : Type) :=
| Ok (a : A)
| Err (exn : string).
Arguments Ok {A} a.
Arguments Err {A} exn.

#[global] Instance res_bind : MBind res := λ A B k m,
  match m with
  | Ok a => k a
  | Err e => Err e
  end.

(** How a command ends: it returns, calls [sys.exit(code)], or an exception
    escapes it. *)
Inductive Outcome :=
| Returned
| Exited (code : Z)
| Raised (exn : string).

(** ** Model resolution against the configuration file

    [get_model_config] above takes the configuration as [load_config()]
    returned it.  [load_config] itself is
    [json.loads(CONFIG_FILE.read_text())] without a [try], and what it
    finds under "model" need not be a string.  The definition below starts
    from the file. *)

(** A JSON value as [not v] and [v.lower()] tell it apart. *)
Inductive JsonValue :=
| JString (s : string)
| JFalsy       (* null, false, 0, an empty list or object *)
| JTruthy.     (* true, a non-zero number, a non-empty list or object *)

(** [~/.mimic_config.json]: missing, not parsable, parsable but not an
    object, or an object with or without an entry "model". *)
Inductive ConfigFile :=
| FileMissing
| FileNotJson
| FileNotObject
| FileObject (model : option JsonValue).

(** [load_config().get("model", DEFAULT_MODEL)] *)
Definition load_model_entry (file : ConfigFile) : res JsonValue :=
  match file with
  | FileMissing => Ok (JString DEFAULT_MODEL)
  | FileNotJson => Err "JSONDecodeError"
  | FileNotObject => Err "AttributeError"
  | FileObject entry => Ok (default (JString DEFAULT_MODEL) entry)
  end.

Definition json_truthy (v : JsonValue) : bool :=
  match v with
  | JString s => Str.truthy (Some s)
  | JFalsy => false
  | JTruthy => true
  end.

(** Lines 142-148: the folding, the membership guard with its warning and
    the final subscript, [None] standing for its [KeyError]. *)
Definition profile_of_name (model_name : string) : option ModelProfile * list Msg :=
  let lowered := Str.lower model_name in
  match SUPPORTED_MODELS !! lowered with
  | Some _ => (SUPPORTED_MODELS !! lowered, [])
  | None => (SUPPORTED_MODELS !! DEFAULT_MODEL, [MsgUnknownModel lowered])
  end.

(** [get_model_config(model_name)] from the process environment and the
    configuration file as it lies on disk. *)
Definition get_model_config_from_file (environ : gmap string string) (file : ConfigFile)
    (model_name : option string) : res (option ModelProfile * list Msg) :=
  let given := if Str.truthy model_name then model_name else environ !! "MIMIC_MODEL" in
  v ← (if Str.truthy given then Ok (JString (Str.or_else given DEFAULT_MODEL))
       else load_model_entry file);
  let v := if json_truthy v then v else JString DEFAULT_MODEL in
  match v with
  | JString s => Ok (profile_of_name s)
  | _ => Err "AttributeError"
  end.

(** The file that [load_config()] reads as the given configuration. *)
Definition file_of_config (config : Config) : ConfigFile :=
  FileObject (JString <$> cfg_model config).

(** ** Persistent state *)

(** The content of [.mimic_state.json]. *)
Record SessionState := mkSessionState {
  task_name : string;
  start_time : Qc;
  recording : bool
}.

(** [~/.moltbot/config.json], the three places where a key may be. *)
Record MoltbotConfig := mkMoltbotConfig {
  mb_anthropic_api_key : option string;
  mb_api_key : option string;
  mb_providers_anthropic_api_key : option string
}.

Definition screen_name (stamp : string) (screenshot_count : nat) : string :=
  let digits := pretty screenshot_count in
  "screen_" ++ stamp ++ "_" ++
  Str.join (replicate (4 - String.length digits) "0"%char) ++ digits ++ ".png".

(** [name.endswith(suffix)], the match of the pattern ["*" + suffix]. *)
Definition ends_with (suffix s : string) : bool :=
  (String.length suffix <=? String.length s)%nat &&
  String.eqb (substring (String.length s - String.length suffix)
                        (String.length suffix) s) suffix.

Section Pipeline.

Context {Image : Type}.

(** [img.filter(ImageFilter.GaussianBlur(radius=r))], [Image.blend(a, b, alpha)]
    and the resize, JPEG and base64 steps of lines 813-825 belong to the
    imaging library: the pipeline is stated for any such operations. *)
Variable GaussianBlur : Z → Image → Image.
Variable blend : Image → Image → Qc → Image.
Variable transport_encode : Image → string.

(** [apply_privacy_blur(img, blur_strength=35)] *)
Definition apply_privacy_blur (img : Image) (blur_strength : Z) : Image :=
  let blurred := GaussianBlur blur_strength img in
  let blurred := GaussianBlur 20 blurred in
  blend img blurred (Qc_of_Z 9 / Qc_of_Z 10)%Qc.

(** One task directory [recordings/<name>/]: the [screenshots/]
    subdirectory (file name to image) when it exists, [actions.json] and
    [SKILL.md] when they exist. *)
Record TaskDir := mkTaskDir {
  screenshots_dir : option (gmap string Image);
  actions_file : option (list Action);
  skill_file : option string
}.

(** The files the program reads and writes: the two session files in the
    working directory, the two configuration files, the task directories
    under [./recordings], and the skill files of the external platform by
    base directory and task name. *)
Record Disk := mkDisk {
  state_file : option SessionState;
  stop_file : bool;
  config_file : option Config;
  moltbot_config_file : option MoltbotConfig;
  recordings : gmap string TaskDir;
  platform_skills : gmap (string * string) string
}.

Definition set_state_file (v : option SessionState) (d : Disk) : Disk :=
  mkDisk v (stop_file d) (config_file d) (moltbot_config_file d)
         (recordings d) (platform_skills d).

Definition set_stop_file (v : bool) (d : Disk) : Disk :=
  mkDisk (state_file d) v (config_file d) (moltbot_config_file d)
         (recordings d) (platform_skills d).

Definition set_config_file (v : option Config) (d : Disk) : Disk :=
  mkDisk (state_file d) (stop_file d) v (moltbot_config_file d)
         (recordings d) (platform_skills d).

Definition set_recordings (v : gmap string TaskDir) (d : Disk) : Disk :=
  mkDisk (state_file d) (stop_file d) (config_file d) (moltbot_config_file d)
         v (platform_skills d).

Definition set_platform_skills (v : gmap (string * string) string) (d : Disk) : Disk :=
  mkDisk (state_file d) (stop_file d) (config_file d) (moltbot_config_file d)
         (recordings d) v.

(** [STATE_FILE.unlink()] and [STOP_FILE.unlink()]: removing a file that
    is not there raises. *)
Definition unlink_state_file (d : Disk) : res Disk :=
  match state_file d with
  | Some _ => Ok (set_state_file None d)
  | None => Err "FileNotFoundError"
  end.

Definition unlink_stop_file (d : Disk) : res Disk :=
  if stop_file d then Ok (set_stop_file false d) else Err "FileNotFoundError".

(** [save_state(task_name, start_time)] *)
Definition save_state (task : string) (start : Qc) (d : Disk) : Disk :=
  set_state_file (Some (mkSessionState task start true)) d.

(** [load_state()] *)
Definition load_state (d : Disk) : option SessionState := state_file d.

(** [clear_state()] *)
Definition clear_state (d : Disk) : res Disk :=
  d1 ← (if bool_decide (is_Some (state_file d)) then unlink_state_file d else Ok d);
  if stop_file d1 then unlink_stop_file d1 else Ok d1.

(** [load_config()] *)
Definition load_config (d : Disk) : Config :=
  default empty_config (config_file d).

(** [screenshots_dir.mkdir(parents=True, exist_ok=True)]: what exists is
    kept. *)
Definition mkdir_screenshots (task : string) (d : Disk) : Disk :=
  let td := default (mkTaskDir None None None) (recordings d !! task) in
  let td' := mkTaskDir (Some (default ∅ (screenshots_dir td)))
                       (actions_file td) (skill_file td) in
  set_recordings (<[task := td']> (recordings d)) d.

(** Saving one frame under [screenshots/]; the directory must exist. *)
Definition write_screenshot (task filename : string) (img : Image) (d : Disk) : res Disk :=
  match recordings d !! task with
  | Some td =>
      match screenshots_dir td with
      | Some files =>
          let td' := mkTaskDir (Some (<[filename := img]> files))
                               (actions_file td) (skill_file td) in
          Ok (set_recordings (<[task := td']> (recordings d)) d)
      | None => Err "FileNotFoundError"
      end
  | None => Err "FileNotFoundError"
  end.

(** [actions_file.write_text(json.dumps(actions, indent=2))] *)
Definition write_actions (task : string) (log : list Action) (d : Disk) : res Disk :=
  match recordings d !! task with
  | Some td =>
      let td' := mkTaskDir (screenshots_dir td) (Some log) (skill_file td) in
      Ok (set_recordings (<[task := td']> (recordings d)) d)
  | None => Err "FileNotFoundError"
  end.

(** [skill_file.write_text(skill_content)] *)
Definition write_skill (task skill_content : string) (d : Disk) : res Disk :=
  match recordings d !! task with
  | Some td =>
      let td' := mkTaskDir (screenshots_dir td) (actions_file td) (Some skill_content) in
      Ok (set_recordings (<[task := td']> (recordings d)) d)
  | None => Err "FileNotFoundError"
  end.

(** One block of the message sent to the model service. *)
Inductive Block :=
| LabelBlock (i n : nat)           (* "Screenshot i of n:" *)
| ImageBlock (data : string)       (* base64 JPEG *)
| PromptBlock (log : list Action) (element_note : bool).

Record Request := mkRequest {
  req_model : string;
  req_max_tokens : Z;
  req_content : list Block
}.

(** The process as a command sees it: environment variables, the disk,
    what has been printed, and the requests sent to the model service. *)
Record World := mkWorld {
  environ : gmap string string;
  disk : Disk;
  out : list Msg;
  api_calls : list Request
}.

Definition set_disk (d : Disk) (w : World) : World :=
  mkWorld (environ w) d (out w) (api_calls w).

Definition tell (ms : list Msg) (w : World) : World :=
  mkWorld (environ w) (disk w) (out w ++ ms) (api_calls w).

(** ** API key resolution *)

(** [a or b] on optional strings. *)
Definition first_truthy (a b : option string) : option string :=
  if Str.truthy a then a else b.

(** [get_api_key()] *)
Definition get_api_key (w : World) : option string :=
  let api_key := environ w !! "ANTHROPIC_API_KEY" in
  if Str.truthy api_key then api_key
  else
    let from_moltbot :=
      match moltbot_config_file (disk w) with
      | Some mb =>
          first_truthy (mb_anthropic_api_key mb)
            (first_truthy (mb_api_key mb) (mb_providers_anthropic_api_key mb))
      | None => None
      end in
    if Str.truthy from_moltbot then from_moltbot
    else
      let api_key := cfg_anthropic_api_key (load_config (disk w)) in
      if Str.truthy api_key then api_key else None.

(** [setup_api_key()]: the flag it returns and the process afterwards. *)
Definition setup_api_key (w : World) : bool * World :=
  if Str.truthy (environ w !! "ANTHROPIC_API_KEY") then (true, w)
  else
    match get_api_key w with
    | Some api_key =>
        if Str.truthy (Some api_key) then
          (true, mkWorld (<["ANTHROPIC_API_KEY" := api_key]> (environ w))
                         (disk w) (out w) (api_calls w))
        else (false, w)
    | None => (false, w)
    end.

(** ** Compilation *)

Definition name_le (a b : string * Image) : Prop := String.leb a.1 b.1 = true.

#[local] Instance name_le_dec : RelDecision name_le :=
  λ a b, decide (String.leb a.1 b.1 = true).

(** [sorted(screenshots_dir.glob("*.png"))]; a missing directory has no
    matches. *)
Definition sorted_pngs (td : TaskDir) : list (string * Image) :=
  merge_sort name_le
    (filter (λ f, ends_with ".png" f.1 = true)
            (map_to_list (default ∅ (screenshots_dir td)))).

(** The loop of lines 811-838. *)
Definition image_blocks (files : list (string * Image)) : list Block :=
  flat_map (λ p, [LabelBlock (S p.1) (length files);
                  ImageBlock (transport_encode p.2.2)])
           (imap (λ i f, (i, f)) files).

(** [any(a.get("element") for a in actions if a.get("type") == "click")] *)
Definition has_element_info (log : list Action) : bool :=
  existsb (λ a, match a with
                | Click _ _ _ _ (Some _) _ => true
                | _ => false
                end) log.

(** What the surroundings answer during one compilation: the text the
    model service returns ([None]: the call raises), the directory that
    [get_moltbot_skills_dir()] resolves to ([None]: integration skipped),
    whether the user typed that directory at its prompt (it is then saved
    to the configuration file), and the error of the write probe of
    [validate_moltbot_dir], if any. *)
Record Answers := mkAnswers {
  api_response : option string;
  moltbot_base : option string;
  moltbot_typed : bool;
  moltbot_probe_error : option string
}.

(** Lines 915-933: the copy into the platform's skill directory. *)
Definition install_to_moltbot (ans : Answers) (task skill_content : string)
    (w : World) : World :=
  match moltbot_base ans with
  | Some base =>
      let w1 :=
        if moltbot_typed ans then
          let c := load_config (disk w) in
          set_disk (set_config_file
                      (Some (mkConfig (cfg_model c) (cfg_anthropic_api_key c) (Some base)))
                      (disk w)) w
        else w in
      match moltbot_probe_error ans with
      | None =>
          tell [MsgInstalled base]
               (set_disk (set_platform_skills
                            (<[(base, task) := skill_content]> (platform_skills (disk w1)))
                            (disk w1)) w1)
      | Some error => tell [MsgNotInstalled error] w1
      end
  | None => tell [MsgNotInstalled "Moltbot integration skipped"] w
  end.

(** [compile_recording(task_name, cost_only, model_name)] *)
Definition compile_recording (ans : Answers) (task : string) (cost_only : bool)
    (model_name : option string) (w : World) : World * Outcome :=
  let '(have_key, w) := setup_api_key w in
  if negb have_key then (tell [MsgError "No API key found!"] w, Exited 1)
  else
    match recordings (disk w) !! task with
    | None => (tell [MsgError "Recording not found"] w, Exited 1)
    | Some td =>
        let log := default [] (actions_file td) in
        let screenshot_files := sorted_pngs td in
        match screenshot_files with
        | [] => (tell [MsgError "No screenshots found"] w, Exited 1)
        | _ :: _ =>
            let total_screenshots := length screenshot_files in
            let screenshot_files := sample_screenshots screenshot_files in
            let cost := estimate_cost (Z.of_nat (length screenshot_files))
                                      (Z.of_nat (length log)) in
            let w := tell [MsgCompiling task (length screenshot_files)
                                        total_screenshots (length log);
                           MsgCost (total_cost cost) (input_tokens cost) (input_cost cost)
                                   (output_tokens cost) (output_cost cost)] w in
            if cost_only then (tell [MsgCostOnlyHint] w, Returned)
            else
              let content := (image_blocks screenshot_files ++
                              [PromptBlock log (has_element_info log)])%list in
              let '(model_config, warnings) :=
                get_model_config (environ w) (load_config (disk w)) model_name in
              let w := tell warnings w in
              match model_config with
              | None => (w, Raised "KeyError")
              | Some profile =>
                  let w := tell [MsgSending (model_id profile)] w in
                  let w := mkWorld (environ w) (disk w) (out w)
                             (api_calls w ++ [mkRequest (model_id profile) 4096 content]) in
                  match api_response ans with
                  | None => (w, Raised "APIError")
                  | Some skill_content =>
                      match write_skill task skill_content (disk w) with
                      | Err e => (w, Raised e)
                      | Ok d =>
                          let w := tell [MsgSaved "SKILL.md"] (set_disk d w) in
                          (install_to_moltbot ans task skill_content w, Returned)
                      end
                  end
              end
        end
    end.

(** ** Recording session *)

(** [cmd_stop]: the stop signal is created only while a session is
    recorded. *)
Definition cmd_stop (d : Disk) : Disk * Outcome :=
  match load_state d with
  | Some st => if recording st then (set_stop_file true d, Returned) else (d, Exited 1)
  | None => (d, Exited 1)
  end.

(** What happens while [cmd_start] records, in the order in which it takes
    effect: a click or a key press delivered by a listener, a [mimic stop]
    run in another process, or one turn of the capture loop: either with
    the clock reading, the [strftime] stamp and the frame grabbed in that
    turn, or, when grabbing, converting or saving the frame fails, with the
    clock reading and the exception that [sct.grab], [Image.frombytes],
    [img.save] or [sct.shot] raises. *)
Inductive Event :=
| EvClick (now : Qc) (element_info : option Element) (x y : Z)
          (button : string) (pressed : bool)
| EvKey (now_flush now : Qc) (key : Key)
| EvStop
| EvTick (now : Qc) (stamp : string) (frame : Image)
| EvCaptureError (now : Qc) (exn : string).

Record Session := mkSession {
  recorder : Recorder;
  sdisk : Disk;
  screenshot_count : nat
}.

Definition max_duration : Qc := Qc_of_Z 60.

(** The capture loop of lines 630-669 together with the listeners.  The
    loop ends on the stop signal, on the time limit, or, when the events
    run out, on Ctrl+C, the one exception its [try] catches; any other
    exception of a capture or of a write leaves the loop, and [cmd_start],
    as it is. *)
Fixpoint run_session (privacy_mode : bool) (task : string) (evs : list Event)
    (s : Session) : Session * option string :=
  match evs with
  | [] => (mkSession (say MsgInterrupted (recorder s)) (sdisk s) (screenshot_count s), None)
  | EvClick now element_info x y button pressed :: rest =>
      run_session privacy_mode task rest
        (mkSession (on_click now element_info x y button pressed (recorder s))
                   (sdisk s) (screenshot_count s))
  | EvKey now_flush now key :: rest =>
      run_session privacy_mode task rest
        (mkSession (on_key_press now_flush now key (recorder s))
                   (sdisk s) (screenshot_count s))
  | EvStop :: rest =>
      run_session privacy_mode task rest
        (mkSession (recorder s) (cmd_stop (sdisk s)).1 (screenshot_count s))
  | EvTick elapsed stamp frame :: rest =>
      if stop_file (sdisk s) then
        (mkSession (say MsgStopSignal (recorder s)) (sdisk s) (screenshot_count s), None)
      else if decide (max_duration ≤ elapsed)%Qc then
        (mkSession (say MsgAutoStop (recorder s)) (sdisk s) (screenshot_count s), None)
      else
        let filename := screen_name stamp (screenshot_count s) in
        let img := if privacy_mode then apply_privacy_blur frame 35 else frame in
        match write_screenshot task filename img (sdisk s) with
        | Err e => (s, Some e)
        | Ok d =>
            let screenshot_count := S (screenshot_count s) in
            run_session privacy_mode task rest
              (mkSession (say (MsgScreenshot screenshot_count elapsed privacy_mode)
                              (recorder s))
                         d screenshot_count)
        end
  | EvCaptureError elapsed exn :: rest =>
      if stop_file (sdisk s) then
        (mkSession (say MsgStopSignal (recorder s)) (sdisk s) (screenshot_count s), None)
      else if decide (max_duration ≤ elapsed)%Qc then
        (mkSession (say MsgAutoStop (recorder s)) (sdisk s) (screenshot_count s), None)
      else (s, Some exn)
  end.

(** Lines 671-687: flush, write the action log, clear the session files.
    [now] is the clock as the flush reads it. *)
Definition teardown (now : Qc) (task : string) (s : Session) : Session * option string :=
  let r := flush_keystroke_buffer now (recorder s) in
  match write_actions task (actions r) (sdisk s) with
  | Err e => (mkSession r (sdisk s) (screenshot_count s), Some e)
  | Ok d =>
      match clear_state d with
      | Err e => (mkSession r d (screenshot_count s), Some e)
      | Ok d' =>
          (mkSession (say (MsgRecordingComplete (screenshot_count s) (length (actions r))) r)
                     d' (screenshot_count s), None)
      end
  end.

Record Args := mkArgs {
  arg_name : string;
  arg_yes : bool;
  arg_privacy : bool;
  arg_compile : bool
}.

Definition says_yes (answer : string) : bool :=
  bool_decide (answer ∈ ["y"; "yes"]).

(** [cmd_start(args)].  [consent] and [blur_choice] are the two answers at
    the prompts, stripped and folded; [start] is [time.time()] at line 486;
    [evs] is what happens while the loop runs and [t_end] the clock at the
    final flush; [ans] answers an automatic compilation. *)
Definition cmd_start (ans : Answers) (args : Args) (consent blur_choice : string)
    (start : Qc) (evs : list Event) (t_end : Qc) (w : World) : World * Outcome :=
  let already :=
    match load_state (disk w) with
    | Some st => recording st
    | None => false
    end in
  if already then (tell [MsgError "Already recording"] w, Exited 1)
  else if negb (arg_yes args) && negb (says_yes consent) then
    (tell [MsgError "Recording cancelled."] w, Exited 0)
  else
    let privacy_mode :=
      if arg_yes args then arg_privacy args
      else arg_privacy args || says_yes blur_choice in
    let d := mkdir_screenshots (arg_name args) (disk w) in
    match (if stop_file d then unlink_stop_file d else Ok d) with
    | Err e => (set_disk d w, Raised e)
    | Ok d =>
        let d := save_state (arg_name args) start d in
        let '(s, raised) :=
          run_session privacy_mode (arg_name args) evs (mkSession new_recorder d 0) in
        match raised with
        | Some e => (tell (console (recorder s)) (set_disk (sdisk s) w), Raised e)
        | None =>
            let '(s, raised) := teardown t_end (arg_name args) s in
            let w := tell (console (recorder s)) (set_disk (sdisk s) w) in
            match raised with
            | Some e => (w, Raised e)
            | None =>
                if arg_compile args then compile_recording ans (arg_name args) false None w
                else (w, Returned)
            end
        end
    end.

End Pipeline.

(** ** Vocabulary of the properties *)

(** The text contains a sensitive keyword as a case-insensitive substring. *)
Definition mentions_keyword (s : string) : Prop :=
  ∃ keyword, keyword ∈ SENSITIVE_KEYWORDS ∧ substring_of keyword (Str.lower s).

(** The content an action keeps of what the user typed or clicked: the
    text of a [typed_text], the name and role of a click's element. *)
Definition stored_payload (a : Action) : list string :=
  match a with
  | TypedText text _ _ _ => [text]
  | Click _ _ _ _ (Some e) _ => option_list (name e) ++ option_list (role e)
  | _ => []
  end.

(** A run of character keys and one special key leave one [typed_text] of
    the run's length, stamped with the first key's clock reading, and then
    the [special_key]. *)
Definition coalesces (keys : list (Qc * ascii)) (key_name : string)
    (now_flush now : Qc) (r : Recorder) : Prop :=
  ∃ text ts sens,
    actions (on_key_press now_flush now (KeyEnum key_name) (type_chars keys r)) =
      (actions r ++ [TypedText text (length keys) ts sens; SpecialKey key_name now])%list ∧
    ∀ t0, head keys.*1 = Some t0 → ts = t0.

(** The buffer is empty exactly when no start time is recorded, in every
    state the handlers reach. *)
Definition buffer_consistent (r : Recorder) : Prop :=
  keystroke_buffer r = [] ↔ buffer_start_time r = None.

(** The positions the sampler selects among [n] files. *)
Definition selected_indices (n : nat) : list nat :=
  sample_screenshots (seq 0 n).

(** Neither session file is on the disk. *)
Definition session_files_absent {Image} (d : @Disk Image) : Prop :=
  state_file d = None ∧ stop_file d = false.

(** The files of a task's [screenshots/] directory. *)
Definition task_screenshots {Image} (task : string) (d : @Disk Image) : gmap string Image :=
  default ∅ (recordings d !! task ≫= screenshots_dir).

Definition named_profiles : list ModelProfile :=
  [sonnet_profile; opus_profile; haiku_profile].

(** The resolution of a given name as the specification describes it: no
    error; the profile of the name, folded to lowercase, when that is one
    of the supported names, and otherwise the default profile after the
    warning. *)
Definition resolves_as_named (environ : gmap string string) (file : ConfigFile)
    (model_name : string) : Prop :=
  get_model_config_from_file environ file (Some model_name) =
    Ok (match SUPPORTED_MODELS !! Str.lower model_name with
        | Some profile => (Some profile, [])
        | None => (Some sonnet_profile, [MsgUnknownModel (Str.lower model_name)])
        end).

(** ** A small instance for the examples

    Images are numbers here and the imaging operations simple arithmetic;
    the examples only need them to be computable. *)

Definition demo_blur (radius : Z) (img : nat) : nat := (img + Z.to_nat radius)%nat.
Definition demo_blend (a b : nat) (alpha : Qc) : nat := (a + 2 * b)%nat.
Definition demo_encode (img : nat) : string := pretty img.

(** A disk in the middle of a session on task "demo": both session files
    are present, the task has two screenshots and no action log yet; task
    "empty" has a directory but no screenshot. *)
Definition demo_disk : @Disk nat :=
  mkDisk (Some (mkSessionState "demo" 0 true)) true None None
         (<["demo" := mkTaskDir (Some (<["b.png" := 8%nat]> (<["a.png" := 5%nat]> ∅))) None None]>
          (<["empty" := mkTaskDir (Some ∅) None None]> ∅))
         ∅.

Definition demo_session : @Session nat :=
  mkSession (mkRecorder [] false (list_ascii_of_string "abc") (Some (Qc_of_Z 4)) [])
            demo_disk 2.

Definition demo_world : @World nat :=
  mkWorld (<["ANTHROPIC_API_KEY" := "sk-test"]> ∅) demo_disk [] [].

Definition demo_answers : Answers :=
  mkAnswers (Some "# Skill") (Some "~/.moltbot/skills") false None.

Definition demo_events : list (@Event nat) :=
  [EvTick (Qc_of_Z 0) "20250101_120000" 7%nat;
   EvKey (Qc_of_Z 1) (Qc_of_Z 1) (KeyCode (Some "x"%char));
   EvTick (Qc_of_Z 2) "20250101_120002" 9%nat;
   EvStop;
   EvTick (Qc_of_Z 4) "20250101_120004" 11%nat].

(** ** The recorder as its listeners drive it *)

(** One call of a listener callback, with the clock readings it takes. *)
Inductive Input :=
| InClick (now : Qc) (element_info : option Element) (x y : Z)
          (button : string) (pressed : bool)
| InKey (now_flush now : Qc) (key : Key).

Definition deliver (r : Recorder) (i : Input) : Recorder :=
  match i with
  | InClick now element_info x y button pressed =>
      on_click now element_info x y button pressed r
  | InKey now_flush now key => on_key_press now_flush now key r
  end.

(** The callbacks in the order in which the listeners make them. *)
Definition deliver_all (ins : list Input) (r : Recorder) : Recorder :=
  foldl deliver r ins.

Definition is_char_key (i : Input) : bool :=
  match i with
  | InKey _ _ (KeyCode (Some _)) => true
  | _ => false
  end.

Definition is_special_key (i : Input) : bool :=
  match i with
  | InKey _ _ (KeyEnum _) => true
  | _ => false
  end.

Definition is_press (i : Input) : bool :=
  match i with
  | InClick _ _ _ _ _ pressed => pressed
  | _ => false
  end.

Definition is_click_action (a : Action) : bool :=
  match a with
  | Click _ _ _ _ _ _ => true
  | _ => false
  end.

Definition is_special_action (a : Action) : bool :=
  match a with
  | SpecialKey _ _ => true
  | _ => false
  end.

(** A button press that comes with accessibility information. *)
Definition brings_element (i : Input) : bool :=
  match i with
  | InClick _ (Some _) _ _ _ true => true
  | _ => false
  end.

(** The characters the log accounts for: the sum of the length fields of
    its [typed_text] entries. *)
Fixpoint typed_characters (log : list Action) : nat :=
  match log with
  | [] => 0
  | TypedText _ n _ _ :: log' => n + typed_characters log'
  | _ :: log' => typed_characters log'
  end.

Definition is_sensitive_warning (m : Msg) : bool :=
  match m with
  | MsgSensitiveWarning => true
  | _ => false
  end.

(** How often the advisory about sensitive fields was printed. *)
Definition warnings_shown (ms : list Msg) : nat :=
  length (filter (λ m, is_sensitive_warning m = true) ms).

(** What a stored [typed_text] looks like: at least one character was
    typed; a sensitive one holds the marker, another one the text as typed;
    and the stored text contains no sensitive keyword. *)
Definition typed_text_ok (a : Action) : Prop :=
  match a with
  | TypedText text n _ sens =>
      (1 ≤ n)%nat ∧
      (if sens then text = REDACTED else String.length text = n) ∧
      has_sensitive_keyword (Str.lower text) = false
  | _ => True
  end.

(** The messages of the capture loop and of the teardown themselves. *)
Definition loop_message (m : Msg) : bool :=
  match m with
  | MsgInterrupted | MsgStopSignal | MsgAutoStop | MsgScreenshot _ _ _
  | MsgRecordingComplete _ _ => true
  | _ => false
  end.

(** The recorder at the end of a recording: the listeners and the capture
    loop of [run_session], then the teardown, which is not reached when an
    exception left the loop. *)
Definition recorded {Image} (GaussianBlur : Z → Image → Image)
    (blend : Image → Image → Qc → Image) (privacy_mode : bool) (task : string)
    (evs : list Event) (t_end : Qc) (s : Session) : Recorder :=
  let '(s1, raised) := run_session GaussianBlur blend privacy_mode task evs s in
  match raised with
  | Some _ => recorder s1
  | None => recorder (teardown t_end task s1).1
  end.

(** The places where an API key is looked for, in the order of
    [get_api_key]: the environment, the three entries of Moltbot's
    configuration, Mimic's own configuration. *)
Definition api_key_sources {Image} (w : @World Image) : list (option string) :=
  [environ w !! "ANTHROPIC_API_KEY";
   moltbot_config_file (disk w) ≫= mb_anthropic_api_key;
   moltbot_config_file (disk w) ≫= mb_api_key;
   moltbot_config_file (disk w) ≫= mb_providers_anthropic_api_key;
   cfg_anthropic_api_key (load_config (disk w))].



(** A screenshot announced on the console was taken before the time
    limit. *)
Definition screenshot_in_time (m : Msg) : Prop :=
  match m with
  | MsgScreenshot _ elapsed _ => (elapsed < max_duration)%Qc
  | _ => True
  end.

Definition is_screenshot_message (m : Msg) : bool :=
  match m with
  | MsgScreenshot _ _ _ => true
  | _ => false
  end.

(** From [d] to [d'] nothing changed on disk except that the task's
    screenshot directory may hold more or newer files: session state,
    configuration, platform skills, the other tasks, and the task's action
    log and skill are the same, and no screenshot name has disappeared. *)
Definition only_screenshots_added {Image} (task : string) (d d' : @Disk Image) : Prop :=
  state_file d' = state_file d ∧
  config_file d' = config_file d ∧
  moltbot_config_file d' = moltbot_config_file d ∧
  platform_skills d' = platform_skills d ∧
  (∀ other, other ≠ task → recordings d' !! other = recordings d !! other) ∧
  recordings d' !! task ≫= actions_file = recordings d !! task ≫= actions_file ∧
  recordings d' !! task ≫= skill_file = recordings d !! task ≫= skill_file ∧
  dom (task_screenshots task d) ⊆ dom (task_screenshots task d').



(** ** Self-test *)

(** [s[-n:]]: the last [n] characters, the whole string when it is
    shorter. *)
Definition slice_last (n : nat) (s : string) : string :=
  substring (String.length s - n) n s.

(** How [cmd_test] shows an API key (lines 1026 and 1040):
    [key[:10] + "..." + key[-4:] if len(key) > 14 else "***"]. *)
Definition mask_key (key : string) : string :=
  if (14 <? String.length key)%nat
  then Str.slice_to 10 key +:+ "..." +:+ slice_last 4 key
  else "***".

(** ** Platform skills directory *)

Section SkillsDir.

(** The file system outside the modelled files and the path operations of
    [pathlib]: whether a path exists, its parent, and [Path(p).expanduser()]
    printed back as a string. *)
Variable path_exists : string → bool.
Variable path_parent : string → string.
Variable expanduser : string → string.

(** [path.exists() or path.parent.exists()] *)
Definition usable_path (path : string) : bool :=
  path_exists path || path_exists (path_parent path).

(** What [get_moltbot_skills_dir()] comes to: the directory or [None],
    the configuration it saved, if it saved one, and whether it had to ask
    the user. *)
Record Resolution := mkResolution {
  resolved : option string;
  saved_config : option Config;
  prompted : bool
}.

(** [get_moltbot_skills_dir()], given the environment, the configuration
    file as loaded, the default path of [get_default_moltbot_path()], and
    the two answers the user gives if asked (already stripped). *)
Definition get_moltbot_skills_dir (environ : gmap string string) (config : Config)
    (default_path choice custom_path : string) : Resolution :=
  let env_path := environ !! "MOLTBOT_SKILLS_DIR" in
  if Str.truthy env_path && usable_path (expanduser (default EmptyString env_path)) then
    mkResolution (Some (expanduser (default EmptyString env_path))) None false
  else
    let from_config :=
      match cfg_moltbot_skills_dir config with
      | Some p => if usable_path (expanduser p) then Some (expanduser p) else None
      | None => None
      end in
    match from_config with
    | Some path => mkResolution (Some path) None false
    | None =>
        if path_exists default_path then mkResolution (Some default_path) None false
        else if path_exists (path_parent default_path) then
          mkResolution (Some default_path) None false
        else if String.eqb choice "1" then
          if Str.truthy (Some custom_path) then
            let path := expanduser custom_path in
            mkResolution (Some path)
              (Some (mkConfig (cfg_model config) (cfg_anthropic_api_key config) (Some path)))
              true
          else mkResolution (Some default_path) None true
        else if String.eqb choice "2" then mkResolution (Some default_path) None true
        else if String.eqb choice "3" then mkResolution None None true
        else mkResolution (Some default_path) None true
    end.

End SkillsDir.

(** ** More of the small instance *)


(** Nothing recorded yet and no session active. *)
Definition demo_idle_world : @World nat :=
  mkWorld ∅ (mkDisk None false None None ∅ ∅) [] [].

(** [mimic start demo --yes --privacy] *)
Definition demo_args : Args := mkArgs "demo" true true false.

(** The key is only in Mimic's own configuration file. *)
Definition demo_config_world : @World nat :=
  mkWorld ∅ (mkDisk None false (Some (mkConfig None (Some "sk-from-config") None))
                    None ∅ ∅) [] [].

(** The model service is down. *)
Definition demo_no_answer : Answers := mkAnswers None None false None.

(** * Properties *)

(** ** Strings *)

Lemma starts_with_spec p s :
  Str.starts_with p s = true ↔ ∃ b, s = p ++ b.
Proof.
  revert s. induction p as [|a p IH]; intros s; simpl.
  - split; [intros _; by exists s | done].
  - destruct s as [|b s]; simpl.
    + split; [done | intros [? ?]; discriminate].
    + destruct (Ascii.eqb_spec a b) as [->|Hne].
      * rewrite IH. split; intros [t Ht]; exists t; [by rewrite Ht | by injection Ht].
      * split; [done | intros [t Ht]; injection Ht; congruence].
Qed.

Lemma contains_spec p s :
  Str.contains p s = true ↔ substring_of p s.
Proof.
  unfold substring_of. induction s as [|c s IH]; simpl.
  - rewrite orb_false_r, starts_with_spec. split.
    + intros [b Hb]. by exists EmptyString, b.
    + intros ([|? a] & b & H); [by exists b | discriminate].
  - rewrite orb_true_iff, IH, starts_with_spec. split.
    + intros [[b Hb] | (a & b & ->)].
      * by exists EmptyString, b.
      * by exists (String c a), b.
    + intros ([|c' a] & b & H).
      * left. by exists b.
      * right. injection H as -> ->. by exists a, b.
Qed.

Lemma has_sensitive_keyword_spec s :
  has_sensitive_keyword s = true ↔
  ∃ keyword, keyword ∈ SENSITIVE_KEYWORDS ∧ substring_of keyword s.
Proof.
  unfold has_sensitive_keyword. rewrite existsb_exists.
  split; intros (k & Hk & H); exists k.
  - by rewrite list_elem_of_In, <-contains_spec.
  - by rewrite <-list_elem_of_In, contains_spec.
Qed.

Lemma mentions_keyword_spec s :
  mentions_keyword s ↔ has_sensitive_keyword (Str.lower s) = true.
Proof. unfold mentions_keyword. by rewrite has_sensitive_keyword_spec. Qed.

Lemma join_length cs : String.length (Str.join cs) = length cs.
Proof. induction cs; simpl; congruence. Qed.

(** ** Keystroke aggregator *)

Local Open Scope list_scope.

Lemma flush_empty now r :
  keystroke_buffer r = [] → flush_keystroke_buffer now r = r.
Proof. unfold flush_keystroke_buffer. by intros ->. Qed.

Lemma flush_nonempty now r :
  keystroke_buffer r ≠ [] →
  let typed_text := Str.join (keystroke_buffer r) in
  let is_sensitive := has_sensitive_keyword (Str.lower typed_text) in
  flush_keystroke_buffer now r =
    mkRecorder
      (actions r ++ [TypedText (if is_sensitive then REDACTED else typed_text)
                               (length (keystroke_buffer r))
                               (start_or_now (buffer_start_time r) now)
                               is_sensitive])
      (sensitive_warning_shown r) [] None
      (console r ++ [MsgTyped (if is_sensitive then REDACTED else preview typed_text)
                              is_sensitive]).
Proof.
  unfold flush_keystroke_buffer. destruct (keystroke_buffer r) as [|c cs] eqn:E; [done|].
  intros _. simpl. by rewrite join_length.
Qed.

(** After a flush the buffer and its start time are both cleared. *)
Lemma flush_clears now r :
  (keystroke_buffer r = [] → buffer_start_time r = None) →
  keystroke_buffer (flush_keystroke_buffer now r) = [] ∧
  buffer_start_time (flush_keystroke_buffer now r) = None.
Proof.
  intros Hwf. destruct (decide (keystroke_buffer r = [])) as [E|E].
  - rewrite flush_empty by done. auto.
  - by rewrite flush_nonempty.
Qed.

(** A run of character keys only grows the buffer; the start time is that
    of the first key unless one was already set. *)
Lemma type_chars_state keys r :
  type_chars keys r =
    mkRecorder (actions r) (sensitive_warning_shown r)
               (keystroke_buffer r ++ keys.*2)
               (match buffer_start_time r with
                | Some t => Some t
                | None => head keys.*1
                end)
               (console r).
Proof.
  unfold type_chars. revert r. induction keys as [|[t c] keys IH]; intros r; simpl.
  - rewrite app_nil_r. by destruct r as [? ? ? [?|] ?].
  - rewrite IH. simpl. rewrite <-app_assoc. simpl.
    by destruct (buffer_start_time r).
Qed.

Lemma buffer_consistent_new : buffer_consistent new_recorder.
Proof. done. Qed.

Lemma buffer_consistent_click now element_info x y button pressed r :
  buffer_consistent r →
  buffer_consistent (on_click now element_info x y button pressed r).
Proof.
  unfold on_click, buffer_consistent. intros H.
  destruct pressed; [|done]. destruct element_info as [e|]; simpl; [|done].
  by destruct (click_is_sensitive e && _).
Qed.

Lemma buffer_consistent_key now_flush now key r :
  buffer_consistent r →
  buffer_consistent (on_key_press now_flush now key r).
Proof.
  unfold buffer_consistent. intros H. destruct key as [[c|]|key_name]; simpl; [|done|].
  - split; [intros E; by apply app_eq_nil in E as [_ ?] | by destruct (buffer_start_time r)].
  - destruct (flush_clears now_flush r) as [Hb Hs]; [apply H|].
    by destruct (bool_decide _); simpl; rewrite Hb, Hs.
Qed.

(** The flush of a sensitive text: the stored action, whatever the clock. *)
Lemma flush_sensitive now r :
  has_sensitive_keyword (Str.lower (Str.join (keystroke_buffer r))) = true →
  actions (flush_keystroke_buffer now r) =
    actions r ++ [TypedText REDACTED (length (keystroke_buffer r))
                            (start_or_now (buffer_start_time r) now) true].
Proof.
  intros Hs. destruct (decide (keystroke_buffer r = [])) as [E|E].
  - rewrite E in Hs. discriminate.
  - rewrite flush_nonempty by done. simpl. by rewrite Hs.
Qed.

Lemma click_sensitive_of_mention e :
  mentions_keyword (Str.or_else (name e) EmptyString) ∨ mentions_keyword (Str.or_else (role e) EmptyString) →
  click_is_sensitive e = true.
Proof.
  unfold click_is_sensitive, click_keyword_hit.
  intros H. apply orb_true_iff. left. apply existsb_exists.
  destruct H as [(k & Hk & H) | (k & Hk & H)]; exists k;
    (split; [by apply list_elem_of_In|]); apply orb_true_iff;
    [left | right]; by apply contains_spec.
Qed.

Lemma on_click_actions now e x y button r :
  actions (on_click now (Some e) x y button true r) =
    actions r ++ [Click x y button now (Some e) (click_is_sensitive e)].
Proof. unfold on_click. simpl. by destruct (click_is_sensitive e && _). Qed.

(** C1, as amended.  A flushed text that contains a sensitive keyword
    (after case folding) is stored as a [typed_text] marked sensitive whose
    text is the redaction marker.  A click on an element whose name or role
    contains a keyword is stored marked sensitive, with the element as the
    accessibility service gave it: the click's payload is not redacted. *)
Theorem sensitive_content_is_marked :
  (∀ now r,
     mentions_keyword (Str.join (keystroke_buffer r)) →
     ∃ ts, actions (flush_keystroke_buffer now r) =
             actions r ++ [TypedText REDACTED (length (keystroke_buffer r)) ts true]) ∧
  (∀ now e x y button r,
     mentions_keyword (Str.or_else (name e) EmptyString) ∨
     mentions_keyword (Str.or_else (role e) EmptyString) →
     actions (on_click now (Some e) x y button true r) =
       actions r ++ [Click x y button now (Some e) true]).
Proof.
  split.
  - intros now r Hm. apply mentions_keyword_spec in Hm.
    eexists. by apply flush_sensitive.
  - intros now e x y button r Hm.
    by rewrite on_click_actions, click_sensitive_of_mention.
Qed.

Lemma sensitive_content_is_marked_witness :
  (∃ ts, actions (flush_keystroke_buffer 1
                    (mkRecorder [] false (list_ascii_of_string "My Password") (Some 1%Qc) [])) =
           [TypedText REDACTED 11 ts true]) ∧
  actions (on_click 1 (Some (mkElement (Some "text") (Some "API Token") "token field" "Settings"))
                    10 20 "Button.left" true new_recorder) =
    [Click 10 20 "Button.left" 1 (Some (mkElement (Some "text") (Some "API Token") "token field" "Settings")) true].
Proof.
  split.
  - apply (proj1 sensitive_content_is_marked 1%Qc
             (mkRecorder [] false (list_ascii_of_string "My Password") (Some 1%Qc) [])).
    exists "password". split; [set_solver|]. by exists "my ", EmptyString.
  - apply (proj2 sensitive_content_is_marked 1%Qc
             (mkElement (Some "text") (Some "API Token") "token field" "Settings")
             10%Z 20%Z "Button.left" new_recorder).
    left. exists "token". split; [set_solver|]. by exists "api ", EmptyString.
Defined.

(** C1 as stated fails for clicks: the click on a field named "Password"
    is stored with that name, not with the redaction marker. *)
Lemma click_payload_not_redacted :
  mentions_keyword "Password" ∧
  actions (on_click 1 (Some (mkElement (Some "password text") (Some "Password") "password field" "Login"))
                    10 20 "Button.left" true new_recorder) =
    [Click 10 20 "Button.left" 1
           (Some (mkElement (Some "password text") (Some "Password") "password field" "Login")) true] ∧
  ¬ Forall (λ p, p = REDACTED)
      (stored_payload
         (Click 10 20 "Button.left" 1
                (Some (mkElement (Some "password text") (Some "Password") "password field" "Login")) true)).
Proof.
  split; [|split].
  - exists "password". split; [set_solver|]. by exists EmptyString, EmptyString.
  - reflexivity.
  - simpl. intros H. apply Forall_cons in H as [H _]. discriminate.
Qed.

(** The special key after a run of characters typed into an empty buffer. *)
Lemma special_after_run t0 c rest key_name now_flush now r :
  keystroke_buffer r = [] → buffer_start_time r = None →
  let typed_text := Str.join (c :: rest.*2) in
  let is_sensitive := has_sensitive_keyword (Str.lower typed_text) in
  actions (on_key_press now_flush now (KeyEnum key_name) (type_chars ((t0, c) :: rest) r)) =
    actions r ++ [TypedText (if is_sensitive then REDACTED else typed_text)
                            (S (length rest)) (start_or_now (Some t0) now_flush) is_sensitive;
                  SpecialKey key_name now].
Proof.
  intros Hb Hs. rewrite type_chars_state, Hb, Hs. simpl.
  rewrite flush_nonempty by done.
  destruct (bool_decide _); simpl; by rewrite length_fmap, <-app_assoc.
Qed.

(** A special key pressed while the buffer is empty appends the
    [special_key] alone: flushing an empty buffer does nothing. *)
Lemma special_key_on_empty_buffer key_name now_flush now r :
  keystroke_buffer r = [] →
  actions (on_key_press now_flush now (KeyEnum key_name) r) =
    actions r ++ [SpecialKey key_name now].
Proof.
  intros Hb. simpl. rewrite flush_empty by done.
  by destruct (bool_decide _).
Qed.

(** C3.  From an empty buffer, N >= 1 character keys followed by one
    special key append exactly two actions, for every clock reading: one
    [typed_text] whose length is N, with the run as its text (or the marker
    when the run is sensitive), then the [special_key].  The [typed_text]
    is stamped with the clock reading of the first key, unless that reading
    is exactly zero: the stored zero counts as unset in
    [buffer_start_time[0] or ...] and the clock of the flush is taken
    instead.  So the run coalesces as claimed exactly when the first
    reading is not zero (or the flush reads zero as well). *)
Theorem keys_then_special_coalesce t0 c rest key_name now_flush now r :
  keystroke_buffer r = [] → buffer_start_time r = None →
  let typed_text := Str.join (c :: rest.*2) in
  let is_sensitive := has_sensitive_keyword (Str.lower typed_text) in
  actions (on_key_press now_flush now (KeyEnum key_name) (type_chars ((t0, c) :: rest) r)) =
    actions r ++ [TypedText (if is_sensitive then REDACTED else typed_text)
                            (length ((t0, c) :: rest))
                            (if decide (t0 = 0%Qc) then now_flush else t0) is_sensitive;
                  SpecialKey key_name now] ∧
  (coalesces ((t0, c) :: rest) key_name now_flush now r ↔ t0 ≠ 0%Qc ∨ now_flush = 0%Qc).
Proof.
  intros Hb Hs typed_text is_sensitive.
  pose proof (special_after_run t0 c rest key_name now_flush now r Hb Hs) as Hrun.
  cbn zeta in Hrun. fold typed_text in Hrun. fold is_sensitive in Hrun.
  cbn [start_or_now] in Hrun.
  split; [exact Hrun|]. unfold coalesces. rewrite Hrun. split.
  - intros (text & ts & sens & Heq & Hts).
    apply app_inv_head in Heq. injection Heq as _ Ets _.
    specialize (Hts t0 eq_refl). subst ts.
    destruct (decide (t0 = 0%Qc)) as [E0|]; [right; congruence | by left].
  - intros Hok. eexists _, _, _. split; [reflexivity|].
    intros t1 Ht1. injection Ht1 as <-.
    destruct (decide (t0 = 0%Qc)) as [E0|]; [|done].
    destruct Hok as [Hne | ->]; [done | by symmetry].
Qed.

(** The run whose first key is buffered at a clock reading of exactly
    zero: the [typed_text] is stamped 5, the reading of the flush. *)
Lemma keys_then_special_coalesce_witness :
  actions (on_key_press (Qc_of_Z 5) (Qc_of_Z 5) (KeyEnum "Key.enter")
             (type_chars [(0%Qc, "a"%char)] new_recorder)) =
    [TypedText "a" 1 (Qc_of_Z 5) false; SpecialKey "Key.enter" (Qc_of_Z 5)] ∧
  (coalesces [(0%Qc, "a"%char)] "Key.enter" (Qc_of_Z 5) (Qc_of_Z 5) new_recorder ↔
   0%Qc ≠ 0%Qc ∨ Qc_of_Z 5 = 0%Qc).
Proof.
  apply (keys_then_special_coalesce 0%Qc "a"%char [] "Key.enter" (Qc_of_Z 5) (Qc_of_Z 5)
           new_recorder); reflexivity.
Defined.

(** The same run does not coalesce as C3 says: the time at which the first
    character was buffered, zero, is not the stamp of the [typed_text]. *)
Lemma zero_start_time_is_replaced :
  actions (on_key_press (Qc_of_Z 5) (Qc_of_Z 5) (KeyEnum "Key.enter")
             (type_chars [(0%Qc, "a"%char)] new_recorder)) =
    [TypedText "a" 1 (Qc_of_Z 5) false; SpecialKey "Key.enter" (Qc_of_Z 5)] ∧
  ¬ coalesces [(0%Qc, "a"%char)] "Key.enter" (Qc_of_Z 5) (Qc_of_Z 5) new_recorder.
Proof.
  split; [reflexivity|].
  intros (text & ts & sens & Heq & Hts).
  specialize (Hts 0%Qc eq_refl). subst ts.
  simpl in Heq. injection Heq as _ E. discriminate E.
Qed.

(** With a first reading that is not zero the stamp is that reading. *)
Example nonzero_start_time_is_kept :
  actions (on_key_press (Qc_of_Z 9) (Qc_of_Z 9) (KeyEnum "Key.enter")
             (type_chars [(Qc_of_Z 2, "h"%char); (Qc_of_Z 3, "i"%char)] new_recorder)) =
    [TypedText "hi" 2 (Qc_of_Z 2) false; SpecialKey "Key.enter" (Qc_of_Z 9)].
Proof. reflexivity. Qed.

(** C10.  The [typed_text] stored for a sensitive buffer has the marker as
    its text and, as its length, the number of characters typed: the length
    of the original text, not the length of the marker. *)
Theorem redacted_length_is_typed_count now r :
  has_sensitive_keyword (Str.lower (Str.join (keystroke_buffer r))) = true →
  ∃ ts,
    actions (flush_keystroke_buffer now r) =
      actions r ++ [TypedText REDACTED (String.length (Str.join (keystroke_buffer r))) ts true] ∧
    String.length (Str.join (keystroke_buffer r)) = length (keystroke_buffer r) ∧
    (length (keystroke_buffer r) ≠ 10 →
     String.length (Str.join (keystroke_buffer r)) ≠ String.length REDACTED).
Proof.
  intros Hs. eexists. rewrite join_length. split; [by apply flush_sensitive|].
  split; [done|]. by simpl.
Qed.

Lemma redacted_length_is_typed_count_witness :
  ∃ ts,
    actions (flush_keystroke_buffer 1
               (mkRecorder [] false (list_ascii_of_string "hunter2 is my password")
                           (Some (Qc_of_Z 3)) [])) =
      [TypedText REDACTED 22 ts true] ∧
    22 = 22 ∧ (22 ≠ 10 → 22 ≠ String.length REDACTED).
Proof.
  apply (redacted_length_is_typed_count 1%Qc
           (mkRecorder [] false (list_ascii_of_string "hunter2 is my password")
                       (Some (Qc_of_Z 3)) [])).
  reflexivity.
Defined.

(** ** Screenshot sampler *)

Local Open Scope nat_scope.

Lemma stride_from_lookup {A} (step k i : nat) (l : list A) :
  1 ≤ step → stride_from step k l !! i = l !! (k + i * step).
Proof.
  intros Hstep. revert k i. induction l as [|x l IH]; intros k i; simpl.
  - by rewrite !lookup_nil.
  - destruct k as [|k].
    + destruct i as [|i]; [done|]. simpl. rewrite IH.
      replace (step + i * step) with (S (step - 1 + i * step)) by lia. done.
    + rewrite IH. done.
Qed.

Lemma slice_step_lookup {A} (step i : nat) (l : list A) :
  1 ≤ step → slice_step step l !! i = l !! (i * step).
Proof. intros. unfold slice_step. by rewrite stride_from_lookup. Qed.

Lemma slice_step_length_ge {A} (step m : nat) (l : list A) :
  1 ≤ step → m * step < length l → m < length (slice_step step l).
Proof.
  intros Hstep Hm. apply lookup_lt_is_Some.
  rewrite slice_step_lookup by done. by apply lookup_lt_is_Some.
Qed.

Lemma sample_small {A} (files : list A) :
  length files ≤ 25 → sample_screenshots files = files.
Proof.
  intros H. unfold sample_screenshots, max_screenshots.
  destruct (Nat.ltb_spec 25 (length files)); [lia | done].
Qed.

Lemma sample_large {A} (files : list A) :
  25 < length files →
  sample_screenshots files = take 25 (slice_step (length files / 25) files).
Proof.
  intros H. unfold sample_screenshots, max_screenshots.
  destruct (Nat.ltb_spec 25 (length files)); [done | lia].
Qed.

Lemma stride_bounds (n : nat) :
  25 < n → 1 ≤ n / 25 ∧ 24 * (n / 25) < n ∧ n - 1 - 24 * (n / 25) < n / 25 + 24.
Proof.
  intros H. pose proof (Nat.div_mod_eq n 25) as E.
  pose proof (Nat.mod_upper_bound n 25) as B. lia.
Qed.

Lemma sample_large_lookup {A} (files : list A) (i : nat) :
  25 < length files → i < 25 →
  sample_screenshots files !! i = files !! (i * (length files / 25)).
Proof.
  intros H Hi. destruct (stride_bounds _ H) as (H1 & _).
  rewrite sample_large by done.
  rewrite lookup_take_lt by done. by apply slice_step_lookup.
Qed.

Lemma sample_large_length {A} (files : list A) :
  25 < length files → length (sample_screenshots files) = 25.
Proof.
  intros H. destruct (stride_bounds _ H) as (H1 & H2 & _).
  rewrite sample_large by done. rewrite length_take.
  pose proof (slice_step_length_ge (length files / 25) 24 files H1 H2). lia.
Qed.

Lemma sample_length {A} (files : list A) :
  length (sample_screenshots files) = length files `min` 25.
Proof.
  destruct (decide (length files ≤ 25)) as [H|H].
  - rewrite sample_small by done. lia.
  - rewrite sample_large_length by lia. lia.
Qed.

Lemma selected_indices_large (n : nat) :
  25 < n → selected_indices n = (λ i, i * (n / 25)) <$> seq 0 25.
Proof.
  intros H. unfold selected_indices.
  assert (Hn : length (seq 0 n) = n) by apply length_seq.
  apply list_eq. intros i.
  destruct (decide (i < 25)) as [Hi|Hi].
  - rewrite sample_large_lookup by (rewrite ?Hn; done). rewrite Hn.
    rewrite list_lookup_fmap, !lookup_seq_lt; [done | lia |].
    destruct (stride_bounds _ H) as (_ & H2 & _). nia.
  - rewrite !lookup_ge_None_2; [done | |].
    + rewrite length_fmap, length_seq. lia.
    + rewrite sample_large_length by (rewrite Hn; done). lia.
Qed.

(** C2, as amended.  A list of at most 25 files is used whole.  From a
    longer list the sampler takes exactly 25 files, those at the positions
    0, stride, ..., 24 * stride with stride = floor(size / 25); the choice
    depends on the list alone.  The selection is the first 25 files exactly
    when size < 50 (the stride is then 1); in general it ends at position
    24 * stride, less than stride + 24 positions before the last file. *)
Theorem sampler_selection {A} (files : list A) :
  (length files ≤ 25 → sample_screenshots files = files) ∧
  (25 < length files →
   let stride := length files / 25 in
   1 ≤ stride ∧
   length (sample_screenshots files) = 25 ∧
   (∀ i, i < 25 → sample_screenshots files !! i = files !! (i * stride)) ∧
   selected_indices (length files) = (λ i, i * stride) <$> seq 0 25 ∧
   (selected_indices (length files) = seq 0 25 ↔ length files < 50) ∧
   length files - 1 - 24 * stride < stride + 24).
Proof.
  split; [apply sample_small|]. intros H stride.
  destruct (stride_bounds _ H) as (H1 & H2 & H3).
  split; [done|]. split; [by apply sample_large_length|].
  split; [intros i Hi; by apply sample_large_lookup|].
  split; [by apply selected_indices_large|].
  split; [|done].
  rewrite selected_indices_large by done. fold stride. split.
  - intros E. apply (f_equal (λ l, l !! 1)) in E. simpl in E.
    injection E as E. pose proof (Nat.div_mod_eq (length files) 25).
    pose proof (Nat.mod_upper_bound (length files) 25). unfold stride in E. lia.
  - intros Hlt. assert (stride = 1) as ->.
    { unfold stride. pose proof (Nat.div_mod_eq (length files) 25).
      pose proof (Nat.mod_upper_bound (length files) 25). lia. }
    apply list_eq. intros i. rewrite list_lookup_fmap.
    destruct (seq 0 25 !! i) eqn:E; simpl; [f_equal; lia | done].
Qed.

Lemma sampler_selection_witness :
  1 ≤ 100 / 25 ∧
  length (sample_screenshots (seq 0 100)) = 25 ∧
  (∀ i, i < 25 → sample_screenshots (seq 0 100) !! i = seq 0 100 !! (i * (100 / 25))) ∧
  selected_indices 100 = (λ i, i * (100 / 25)) <$> seq 0 25 ∧
  (selected_indices 100 = seq 0 25 ↔ 100 < 50) ∧
  100 - 1 - 24 * (100 / 25) < 100 / 25 + 24.
Proof.
  apply (proj2 (sampler_selection (seq 0 100))). vm_compute. lia.
Defined.

(** C2 as stated fails between 26 and 49 files: of 49 files the sampler
    takes the first 25 and none of the last 24. *)
Lemma sampler_takes_prefix_of_49 :
  25 < length (seq 0 49) ∧
  sample_screenshots (seq 0 49) = take 25 (seq 0 49) ∧
  ∀ i, i ∈ sample_screenshots (seq 0 49) → i ≤ 24.
Proof.
  split; [vm_compute; lia|]. split; [reflexivity|].
  intros i Hi. vm_compute in Hi.
  repeat (apply elem_of_cons in Hi as [->|Hi]; [lia|]).
  by apply elem_of_nil in Hi.
Qed.

(** ** Cost estimate *)

(** For every count of selected images, 0 to 25, and up to 400 actions,
    the total computed differs from the exact value of the formula by at
    most 2^-55, less than 3 parts in 10^17 of a dollar. *)
Lemma total_cost_near_exact (num_screenshots num_actions : Z) :
  (0 ≤ num_screenshots ≤ 25)%Z → (0 ≤ num_actions < 400)%Z →
  total_within (1 # 2 ^ 55) num_screenshots num_actions = true.
Proof.
  intros Hn Ha.
  assert (Hall : forallb (λ n, forallb (λ a, total_within (1 # 2 ^ 55) (Z.of_nat n) (Z.of_nat a))
                                  (seq 0 400)) (seq 0 26) = true) by (vm_compute; reflexivity).
  rewrite forallb_forall in Hall.
  specialize (Hall (Z.to_nat num_screenshots)).
  rewrite forallb_forall in Hall.
  specialize (Hall ltac:(apply in_seq; lia) (Z.to_nat num_actions) ltac:(apply in_seq; lia)).
  by rewrite !Z2Nat.id in Hall by lia.
Qed.

(** C6.  The estimate is a function of the image count and the action
    count alone and follows the documented formula, evaluated as the
    source writes it: the input tokens are 1600 per image plus 500 plus 20
    per action and the output tokens are 2000, both exact integers, the
    same as in the exact estimate; the input cost is the double nearest to
    tokens / 1,000,000, times 3.0, the output cost likewise with 2000
    tokens and 15.0, which is the double written 0.03 for every input; and
    the total is the binary64 sum of the two.  For the image counts a
    compilation can reach, 0 to 25, and up to 400 actions, this total is
    within 2^-55 of the exact value of the formula. *)
Theorem estimate_cost_formula (num_screenshots num_actions : Z) :
  let c := estimate_cost_binary64 num_screenshots num_actions in
  f_input_tokens c = (num_screenshots * 1600 + (500 + num_actions * 20))%Z ∧
  f_output_tokens c = 2000%Z ∧
  f_input_cost c = B64.mul (B64.truediv (f_input_tokens c) 1000000) (B64.literal 3) ∧
  f_output_cost c = B64.mul (B64.truediv (f_output_tokens c) 1000000) (B64.literal 15) ∧
  f_total_cost c = B64.add (f_input_cost c) (f_output_cost c) ∧
  f_output_cost c = SpecFloat.S754_finite false 8646911284551352 (-58) ∧
  f_input_tokens c = input_tokens (estimate_cost num_screenshots num_actions) ∧
  f_output_tokens c = output_tokens (estimate_cost num_screenshots num_actions) ∧
  ((0 ≤ num_screenshots ≤ 25)%Z → (0 ≤ num_actions < 400)%Z →
   total_within (1 # 2 ^ 55) num_screenshots num_actions = true).
Proof.
  cbv zeta. repeat (split; [reflexivity|]). apply total_cost_near_exact.
Qed.

(** 25 images and one action: 40,520 input tokens, and a total within
    2^-55 of the exact 0.15156. *)
Lemma estimate_cost_formula_witness :
  f_input_tokens (estimate_cost_binary64 25 1) = 40520%Z ∧
  f_total_cost (estimate_cost_binary64 25 1) =
    SpecFloat.S754_finite false 5460524476194179 (-55) ∧
  total_within (1 # 2 ^ 55) 25 1 = true.
Proof.
  split; [reflexivity|]. split; [reflexivity|].
  apply (proj2 (proj2 (proj2 (proj2 (proj2 (proj2 (proj2 (proj2
           (estimate_cost_formula 25 1))))))))); lia.
Defined.

(** One screenshot and one action: 2120 input tokens; the input cost is
    the double printed 0.006359999999999999, the total the double printed
    0.036359999999999996.  The exact value of the formula, 0.03636, is not
    a double, and the total computed is not even the double nearest to it,
    which is one unit in the last place above. *)
Example estimate_cost_rounding :
  let c := estimate_cost_binary64 1 1 in
  f_input_tokens c = 2120%Z ∧
  f_input_cost c = SpecFloat.S754_finite false 7332580769299546 (-60) ∧
  f_total_cost c = SpecFloat.S754_finite false 5240028238438119 (-57) ∧
  total_cost (estimate_cost 1 1) = (Qc_of_Z 3636 / Qc_of_Z 100000)%Qc ∧
  (B64.to_Q (f_total_cost c) < Qcanon.this (total_cost (estimate_cost 1 1)))%Q ∧
  (Qcanon.this (total_cost (estimate_cost 1 1)) <
   B64.to_Q (SpecFloat.S754_finite false 5240028238438120 (-57)))%Q ∧
  total_within (1 # 2 ^ 57) 1 1 = true.
Proof. repeat split; try reflexivity; by apply Qc_is_canon. Qed.

(** ** Model profiles *)

Lemma supported_models_named (model_name : string) profile :
  SUPPORTED_MODELS !! model_name = Some profile → profile ∈ named_profiles.
Proof.
  unfold SUPPORTED_MODELS, named_profiles. rewrite !lookup_insert.
  repeat case_decide; intros E; try (injection E as <-; set_solver).
  by rewrite lookup_empty in E.
Qed.

Lemma default_model_supported :
  SUPPORTED_MODELS !! DEFAULT_MODEL = Some sonnet_profile.
Proof. unfold SUPPORTED_MODELS, DEFAULT_MODEL. by rewrite lookup_insert_eq. Qed.

Lemma get_model_config_named (environ : gmap string string) (config : Config) model_name :
  ∃ profile,
    (get_model_config environ config model_name).1 = Some profile ∧
    profile ∈ named_profiles.
Proof.
  unfold get_model_config.
  match goal with |- context [SUPPORTED_MODELS !! Str.lower ?n] =>
    destruct (SUPPORTED_MODELS !! Str.lower n) as [p|] eqn:E end; simpl.
  - exists p. split; [done|]. by eapply supported_models_named.
  - exists sonnet_profile. split; [apply default_model_supported|].
    unfold named_profiles. set_solver.
Qed.

Lemma profile_of_name_named (model_name : string) :
  profile_of_name model_name =
    match SUPPORTED_MODELS !! Str.lower model_name with
    | Some profile => (Some profile, [])
    | None => (Some sonnet_profile, [MsgUnknownModel (Str.lower model_name)])
    end ∧
  ∃ profile, (profile_of_name model_name).1 = Some profile ∧ profile ∈ named_profiles.
Proof.
  unfold profile_of_name. cbv zeta.
  destruct (SUPPORTED_MODELS !! Str.lower model_name) as [p|] eqn:E.
  - split; [done|]. exists p. split; [done|]. by eapply supported_models_named.
  - rewrite default_model_supported. split; [done|].
    exists sonnet_profile. split; [done|]. unfold named_profiles. set_solver.
Qed.

(** A name that is given is resolved on its own. *)
Lemma get_model_config_given (environ : gmap string string) (file : ConfigFile) c s :
  get_model_config_from_file environ file (Some (String c s)) =
    Ok (profile_of_name (String c s)).
Proof. reflexivity. Qed.

(** With a file that parses to an object whose "model", if present, is a
    string, the resolution from the file is the resolution from the loaded
    configuration. *)
Lemma get_model_config_readable (environ : gmap string string) (config : Config) model_name :
  get_model_config_from_file environ (file_of_config config) model_name =
    Ok (get_model_config environ config model_name).
Proof.
  unfold get_model_config_from_file, get_model_config, file_of_config, profile_of_name,
    Str.or_else.
  destruct model_name as [[|c1 m1]|], (environ !! "MIMIC_MODEL"%string) as [[|c2 m2]|],
    (cfg_model config) as [[|c3 m3]|]; reflexivity.
Qed.

(** Without a name, and without one in the environment, the configuration
    file is read: a file that does not parse, or that is not an object, or
    whose "model" is a non-string value that is not falsy, ends the
    resolution with an exception. *)
Lemma unreadable_config_raises (environ : gmap string string) model_name :
  Str.truthy model_name = false →
  Str.truthy (environ !! "MIMIC_MODEL"%string) = false →
  get_model_config_from_file environ FileNotJson model_name = Err "JSONDecodeError" ∧
  get_model_config_from_file environ FileNotObject model_name = Err "AttributeError" ∧
  get_model_config_from_file environ (FileObject (Some JTruthy)) model_name =
    Err "AttributeError".
Proof.
  intros Hname Henv. unfold get_model_config_from_file. by rewrite Hname, Henv.
Qed.

(** C9, as amended.  A model name that is given, that is, a string that is
    not empty, is resolved without an error whatever the environment and
    the configuration file hold, the file not even being read: a name
    that is recognised after lowercase folding returns its profile without
    a warning, any other returns the default profile after the warning; the
    result is one of the three named profiles.  The empty name counts as no
    name: the name is then taken from MIMIC_MODEL when that is not empty;
    otherwise the configuration file is consulted, and the default is
    taken when the file is missing, while a string stored there is resolved
    like a given name.  Whenever the resolution returns, it returns one of
    the named profiles. *)
Theorem model_resolution_of_names (environ : gmap string string) (file : ConfigFile) :
  (∀ c s, resolves_as_named environ file (String c s)) ∧
  (∀ c s, ∃ profile warnings,
     get_model_config_from_file environ file (Some (String c s)) =
       Ok (Some profile, warnings) ∧
     profile ∈ named_profiles) ∧
  (∀ model_name, Str.truthy model_name = false →
     get_model_config_from_file environ file model_name =
       match environ !! "MIMIC_MODEL"%string with
       | Some (String c s) => get_model_config_from_file environ file (Some (String c s))
       | _ => get_model_config_from_file ∅ file None
       end) ∧
  get_model_config_from_file ∅ FileMissing None = Ok (Some sonnet_profile, []) ∧
  (∀ c s, get_model_config_from_file ∅ (FileObject (Some (JString (String c s)))) None =
          get_model_config_from_file ∅ FileMissing (Some (String c s))) ∧
  (∀ model_name result warnings,
     get_model_config_from_file environ file model_name = Ok (result, warnings) →
     ∃ profile, result = Some profile ∧ profile ∈ named_profiles).
Proof.
  split; [|split; [|split; [|split; [|split]]]].
  - intros c s. unfold resolves_as_named. rewrite get_model_config_given.
    f_equal. apply profile_of_name_named.
  - intros c s. rewrite get_model_config_given.
    destruct (profile_of_name_named (String c s)) as [_ (profile & Hp & Hnamed)].
    exists profile, (profile_of_name (String c s)).2. split; [|done].
    f_equal. rewrite <-Hp. apply surjective_pairing.
  - intros model_name Hname. unfold get_model_config_from_file. rewrite Hname.
    rewrite lookup_empty. by destruct (environ !! "MIMIC_MODEL"%string) as [[|c s]|].
  - by vm_compute.
  - done.
  - intros model_name result warnings. unfold get_model_config_from_file.
    destruct (if Str.truthy _ then _ else _) as [v|e]; simpl; [|done].
    destruct (if json_truthy v then v else JString DEFAULT_MODEL) as [s| |]; [|done|done].
    intros [= Hres]. destruct (profile_of_name_named s) as [_ (profile & Hp & Hnamed)].
    exists profile. split; [|done]. rewrite <-Hp. by rewrite Hres.
Qed.

(** Two names, no environment, a file that does not even parse. *)
Lemma model_resolution_of_names_witness :
  resolves_as_named ∅ FileNotJson "Opus" ∧
  get_model_config_from_file ∅ FileNotJson (Some "Opus"%string) = Ok (Some opus_profile, []) ∧
  get_model_config_from_file ∅ FileNotJson (Some "gpt"%string) =
    Ok (Some sonnet_profile, [MsgUnknownModel "gpt"]).
Proof.
  split; [|split].
  - apply (proj1 (model_resolution_of_names ∅ FileNotJson) "O"%char "pus"%string).
  - by vm_compute.
  - by vm_compute.
Defined.

(** C9 as stated fails for the empty name: it is no supported name, yet it
    is not answered with the default profile and the warning.  With
    MIMIC_MODEL set to "opus" the resolution returns the profile of
    "opus", and prints nothing. *)
Lemma empty_name_is_no_name :
  SUPPORTED_MODELS !! Str.lower EmptyString = None ∧
  get_model_config_from_file (<["MIMIC_MODEL"%string := "opus"%string]> ∅) FileMissing
    (Some EmptyString) = Ok (Some opus_profile, []) ∧
  ¬ resolves_as_named (<["MIMIC_MODEL"%string := "opus"%string]> ∅) FileMissing EmptyString.
Proof.
  split; [by vm_compute|]. split; [by vm_compute|].
  unfold resolves_as_named. by vm_compute.
Qed.

(** The resolution from a loaded configuration, on some inputs. *)
Example model_resolution_examples :
  get_model_config ∅ empty_config (Some "OPUS"%string) = (Some opus_profile, []) ∧
  get_model_config ∅ empty_config (Some "gpt"%string) =
    (Some sonnet_profile, [MsgUnknownModel "gpt"]) ∧
  get_model_config (<["MIMIC_MODEL"%string := "Haiku"%string]> ∅) empty_config None =
    (Some haiku_profile, []) ∧
  get_model_config ∅ (mkConfig (Some "opus"%string) None None) (Some EmptyString) =
    (Some opus_profile, []).
Proof. repeat split; by vm_compute. Qed.

(** ** Session files, capture loop and compilation *)

Section PipelineFacts.

Context {Image : Type}.
Variable GaussianBlur : Z → Image → Image.
Variable blend : Image → Image → Qc → Image.
Variable transport_encode : Image → string.

Implicit Types (d : @Disk Image) (s : @Session Image) (w : @World Image).

Lemma clear_state_result d :
  clear_state d =
    Ok (mkDisk None false (config_file d) (moltbot_config_file d)
               (recordings d) (platform_skills d)).
Proof. by destruct d as [[st|] [] c m r p]. Qed.

Lemma flush_buffer_empty now r :
  keystroke_buffer (flush_keystroke_buffer now r) = [].
Proof.
  destruct (decide (keystroke_buffer r = [])) as [E|E].
  - by rewrite flush_empty.
  - by rewrite flush_nonempty.
Qed.

Lemma teardown_twice now now' task s :
  is_Some (recordings (sdisk s) !! task) →
  ∃ s1,
    teardown now task s = (s1, None) ∧ session_files_absent (sdisk s1) ∧
    ∃ s2,
      teardown now' task s1 = (s2, None) ∧ sdisk s2 = sdisk s1 ∧
      actions (recorder s2) = actions (recorder s1).
Proof.
  destruct s as [r d n]. intros [td Htd]. simpl in Htd. unfold teardown. simpl.
  unfold write_actions. rewrite Htd, clear_state_result. simpl.
  eexists. split; [done|]. split; [done|]. simpl.
  rewrite (flush_empty now') by apply flush_buffer_empty.
  rewrite lookup_insert_eq, clear_state_result. simpl.
  eexists. split; [done|]. simpl. by rewrite insert_insert_eq.
Qed.

(** C4.  [clear_state] never raises, whichever of the two session files
    exist; afterwards neither exists, and clearing again changes nothing.
    The whole teardown of a session whose task directory exists likewise
    ends with neither file on disk, and a second teardown succeeds and
    leaves the disk and the action log as the first one left them. *)
Theorem teardown_idempotent :
  (∀ d, ∃ d1,
     clear_state d = Ok d1 ∧ session_files_absent d1 ∧ clear_state d1 = Ok d1) ∧
  (∀ now now' task s,
     is_Some (recordings (sdisk s) !! task) →
     ∃ s1,
       teardown now task s = (s1, None) ∧ session_files_absent (sdisk s1) ∧
       ∃ s2,
         teardown now' task s1 = (s2, None) ∧ sdisk s2 = sdisk s1 ∧
         actions (recorder s2) = actions (recorder s1)).
Proof.
  split.
  - intros d. eexists. split; [apply clear_state_result|]. by split.
  - apply teardown_twice.
Qed.

(** ** Capture loop *)

Lemma write_screenshot_files task filename img d d' :
  write_screenshot task filename img d = Ok d' →
  task_screenshots task d' = <[filename := img]> (task_screenshots task d).
Proof.
  unfold write_screenshot, task_screenshots.
  destruct (recordings d !! task) as [td|] eqn:E; [|done]. simpl.
  destruct (screenshots_dir td) as [files|]; [|done].
  intros [= <-]. simpl. by rewrite lookup_insert_eq.
Qed.

Lemma cmd_stop_files task d :
  task_screenshots task (cmd_stop d).1 = task_screenshots task d.
Proof.
  unfold cmd_stop. destruct (load_state d) as [st|]; [|done].
  by destruct (recording st).
Qed.

(** One turn of the loop in privacy mode, when the session goes on: the
    file of that turn holds the blurred frame. *)
Lemma privacy_tick task elapsed stamp frame rest s files :
  stop_file (sdisk s) = false → ¬ (max_duration ≤ elapsed)%Qc →
  recordings (sdisk s) !! task ≫= screenshots_dir = Some files →
  ∃ d,
    write_screenshot task (screen_name stamp (screenshot_count s))
                     (apply_privacy_blur GaussianBlur blend frame 35) (sdisk s) = Ok d ∧
    run_session GaussianBlur blend true task (EvTick elapsed stamp frame :: rest) s =
      run_session GaussianBlur blend true task rest
        (mkSession (say (MsgScreenshot (S (screenshot_count s)) elapsed true) (recorder s))
                   d (S (screenshot_count s))).
Proof.
  intros Hstop Hlt Hdir. simpl. rewrite Hstop. destruct (decide _) as [?|_]; [done|].
  unfold write_screenshot.
  destruct (recordings (sdisk s) !! task) as [td|]; [|done]. simpl in Hdir.
  rewrite Hdir. eauto.
Qed.

(** C5.  In privacy mode every file found in the task's screenshot
    directory after the capture loop either was there, with the same
    content, before the loop, or was written by one of its turns: it bears
    the name made of that turn's stamp and of the counter as it stood when
    the turn began, and it holds the frame grabbed in that very turn after
    the blur of radius 35, the blur of radius 20 and the blend with weight
    9/10.  As the loop may be interrupted after any turn, this holds at
    every moment of the session: no frame reaches the directory as it was
    captured. *)
Theorem privacy_frames_blurred task evs s s' raised :
  run_session GaussianBlur blend true task evs s = (s', raised) →
  ∀ filename img,
    task_screenshots task (sdisk s') !! filename = Some img →
    task_screenshots task (sdisk s) !! filename = Some img ∨
    ∃ evs1 elapsed stamp frame evs2,
      evs = evs1 ++ EvTick elapsed stamp frame :: evs2 ∧
      filename =
        screen_name stamp
          (screenshot_count (run_session GaussianBlur blend true task evs1 s).1) ∧
      img = blend frame (GaussianBlur 20 (GaussianBlur 35 frame)) (Qc_of_Z 9 / Qc_of_Z 10)%Qc.
Proof.
  revert s. induction evs as [|ev evs IH]; intros s Hrun filename img Himg.
  - simpl in Hrun. injection Hrun as <- <-. by left.
  - assert (Hlater : ∀ s0,
      (∀ l, run_session GaussianBlur blend true task (ev :: l) s =
            run_session GaussianBlur blend true task l s0) →
      (∃ evs1 elapsed stamp frame evs2,
         evs = evs1 ++ EvTick elapsed stamp frame :: evs2 ∧
         filename =
           screen_name stamp
             (screenshot_count (run_session GaussianBlur blend true task evs1 s0).1) ∧
         img = blend frame (GaussianBlur 20 (GaussianBlur 35 frame))
                     (Qc_of_Z 9 / Qc_of_Z 10)%Qc) →
      ∃ evs1 elapsed stamp frame evs2,
        ev :: evs = evs1 ++ EvTick elapsed stamp frame :: evs2 ∧
        filename =
          screen_name stamp
            (screenshot_count (run_session GaussianBlur blend true task evs1 s).1) ∧
        img = blend frame (GaussianBlur 20 (GaussianBlur 35 frame))
                    (Qc_of_Z 9 / Qc_of_Z 10)%Qc).
    { intros s0 Hstep (evs1 & e & st & f & evs2 & -> & Hname & Hblur).
      exists (ev :: evs1), e, st, f, evs2. split; [done|]. by rewrite Hstep. }
    assert (Hrest : ∀ s0,
      (∀ l, run_session GaussianBlur blend true task (ev :: l) s =
            run_session GaussianBlur blend true task l s0) →
      task_screenshots task (sdisk s0) = task_screenshots task (sdisk s) →
      task_screenshots task (sdisk s) !! filename = Some img ∨
      ∃ evs1 elapsed stamp frame evs2,
        ev :: evs = evs1 ++ EvTick elapsed stamp frame :: evs2 ∧
        filename =
          screen_name stamp
            (screenshot_count (run_session GaussianBlur blend true task evs1 s).1) ∧
        img = blend frame (GaussianBlur 20 (GaussianBlur 35 frame))
                    (Qc_of_Z 9 / Qc_of_Z 10)%Qc).
    { intros s0 Hstep Hsame. rewrite Hstep in Hrun.
      destruct (IH s0 Hrun filename img Himg) as [Hold|Hnew].
      - left. by rewrite <-Hsame.
      - right. by apply (Hlater s0). }
    destruct ev as [now element_info x y button pressed | now_flush now key |
                    | elapsed stamp frame | elapsed exn].
    + by eapply Hrest.
    + by eapply Hrest.
    + eapply Hrest; [done|]. simpl. apply cmd_stop_files.
    + destruct (stop_file (sdisk s)) eqn:Hstop.
      { simpl in Hrun. rewrite Hstop in Hrun. injection Hrun as <- <-. by left. }
      destruct (decide (max_duration ≤ elapsed)%Qc) as [Hmax|Hmax].
      { simpl in Hrun. rewrite Hstop in Hrun. destruct (decide _); [|done].
        injection Hrun as <- <-. by left. }
      destruct (write_screenshot task (screen_name stamp (screenshot_count s))
                  (apply_privacy_blur GaussianBlur blend frame 35) (sdisk s))
        as [d|e] eqn:Hw.
      2:{ simpl in Hrun. rewrite Hstop in Hrun. destruct (decide _); [done|].
          rewrite Hw in Hrun. injection Hrun as <- <-. by left. }
      assert (Hstep : ∀ l,
        run_session GaussianBlur blend true task (EvTick elapsed stamp frame :: l) s =
        run_session GaussianBlur blend true task l
          (mkSession (say (MsgScreenshot (S (screenshot_count s)) elapsed true) (recorder s))
                     d (S (screenshot_count s)))).
      { intros l. simpl. rewrite Hstop. destruct (decide _); [done|]. by rewrite Hw. }
      rewrite Hstep in Hrun. apply write_screenshot_files in Hw.
      destruct (IH _ Hrun filename img Himg) as [Hin|Hnew].
      * simpl in Hin. rewrite Hw, lookup_insert in Hin. case_decide as Hname.
        -- injection Hin as <-. right. exists [], elapsed, stamp, frame, evs.
           split; [done|]. split; [by rewrite <-Hname | done].
        -- by left.
      * right. by eapply Hlater.
    + simpl in Hrun. destruct (stop_file (sdisk s)).
      { injection Hrun as <- <-. by left. }
      destruct (decide _); injection Hrun as <- <-; by left.
Qed.

(** ** Compilation *)

(** Looking for the API key leaves the disk, the console and the list of
    requests alone; it may only export the key into the environment. *)
Lemma setup_api_key_frame w :
  disk (setup_api_key w).2 = disk w ∧
  out (setup_api_key w).2 = out w ∧
  api_calls (setup_api_key w).2 = api_calls w.
Proof.
  unfold setup_api_key. destruct (Str.truthy (environ w !! _)); [done|].
  destruct (get_api_key w) as [k|]; [|done]. by destruct (Str.truthy (Some k)).
Qed.

(** C7.  A cost-estimate-only compilation changes nothing on disk, neither
    in the task directory nor in the platform's skill directory, and sends
    no request to the model service; it only prints. *)
Theorem cost_only_is_read_only (ans : Answers) task model_name w :
  disk (compile_recording transport_encode ans task true model_name w).1 = disk w ∧
  api_calls (compile_recording transport_encode ans task true model_name w).1 = api_calls w.
Proof.
  unfold compile_recording.
  destruct (setup_api_key_frame w) as (Hd & _ & Ha).
  destruct (setup_api_key w) as [have_key w1]. simpl in Hd, Ha.
  destruct have_key; simpl; [|done]. rewrite Hd.
  destruct (recordings (disk w) !! task) as [td|]; [|done].
  by destruct (sorted_pngs td).
Qed.

Lemma compile_exit_frame (reason : string) w w1 :
  disk w1 = disk w → out w1 = out w → api_calls w1 = api_calls w →
  ∃ w', (tell [MsgError reason] w1, Exited 1) = (w', Exited 1) ∧
        disk w' = disk w ∧ api_calls w' = api_calls w ∧
        ∃ what, out w' = out w ++ [MsgError what].
Proof. intros Hd Ho Ha. eexists. repeat split; [done..|]. simpl. rewrite Ho. eauto. Qed.

(** C8.  Compilation prints an error and ends with exit status 1, the
    disk untouched and no request sent, when the task directory does not
    exist and when it holds no screenshot.  A missing action log is no error: the estimate and the
    request are then made for the empty action list. *)
Theorem compile_preconditions (ans : Answers) task cost_only model_name w :
  (recordings (disk w) !! task = None →
   ∃ w', compile_recording transport_encode ans task cost_only model_name w = (w', Exited 1) ∧
         disk w' = disk w ∧ api_calls w' = api_calls w ∧
         ∃ what, out w' = out w ++ [MsgError what]) ∧
  (∀ td, recordings (disk w) !! task = Some td → sorted_pngs td = [] →
   ∃ w', compile_recording transport_encode ans task cost_only model_name w = (w', Exited 1) ∧
         disk w' = disk w ∧ api_calls w' = api_calls w ∧
         ∃ what, out w' = out w ++ [MsgError what]) ∧
  (∀ td w1,
     setup_api_key w = (true, w1) →
     recordings (disk w) !! task = Some td →
     actions_file td = None → sorted_pngs td ≠ [] →
     let files := sample_screenshots (sorted_pngs td) in
     let cost := estimate_cost (Z.of_nat (length files)) 0 in
     let printed := [MsgCompiling task (length files) (length (sorted_pngs td)) 0;
                     MsgCost (total_cost cost) (input_tokens cost) (input_cost cost)
                             (output_tokens cost) (output_cost cost)] in
     compile_recording transport_encode ans task true model_name w =
       (tell [MsgCostOnlyHint] (tell printed w1), Returned) ∧
     ∃ w' outcome profile,
       compile_recording transport_encode ans task false model_name w = (w', outcome) ∧
       (outcome = Returned ∨ outcome = Raised "APIError") ∧
       profile ∈ named_profiles ∧
       api_calls w' =
         api_calls w ++
         [mkRequest (model_id profile) 4096
                    (image_blocks transport_encode files ++ [PromptBlock [] false])]).
Proof.
  destruct (setup_api_key_frame w) as (Hd & Ho & Ha).
  split; [|split].
  - intros Hnone. unfold compile_recording.
    destruct (setup_api_key w) as [have_key w1]. simpl in Hd, Ho, Ha.
    destruct have_key; simpl; [|by apply compile_exit_frame].
    rewrite Hd, Hnone. by apply compile_exit_frame.
  - intros td Htd Hpng. unfold compile_recording.
    destruct (setup_api_key w) as [have_key w1]. simpl in Hd, Ho, Ha.
    destruct have_key; simpl; [|by apply compile_exit_frame].
    rewrite Hd, Htd, Hpng. by apply compile_exit_frame.
  - intros td w1 Hkey Htd Hlog Hpng files cost printed.
    unfold compile_recording. rewrite Hkey in *. simpl in Hd, Ha. simpl.
    rewrite Hd, Htd, Hlog.
    destruct (sorted_pngs td) as [|f fs] eqn:Efiles; [done|]. simpl.
    split; [done|].
    destruct (get_model_config_named (environ w1) (load_config (disk w)) model_name)
      as (profile & Hp & Hnamed).
    destruct (get_model_config _ _ model_name) as [model_config warnings].
    simpl in Hp. subst model_config.
    destruct (api_response ans) as [skill_content|]; simpl.
    + unfold write_skill. simpl. rewrite ?Hd, Htd.
      eexists _, Returned, profile. split; [done|]. split; [by left|]. split; [done|].
      unfold install_to_moltbot.
      destruct (moltbot_base ans); simpl; [|by rewrite Ha].
      destruct (moltbot_typed ans), (moltbot_probe_error ans); simpl; by rewrite Ha.
    + eexists _, (Raised "APIError"), profile. split; [done|]. split; [by right|].
      split; [done|]. simpl. by rewrite Ha.
Qed.

End PipelineFacts.

(** ** The properties on the small instance *)

Lemma teardown_idempotent_witness :
  ∃ s1,
    teardown (Qc_of_Z 6) "demo" demo_session = (s1, None) ∧
    session_files_absent (sdisk s1) ∧
    ∃ s2,
      teardown (Qc_of_Z 7) "demo" s1 = (s2, None) ∧ sdisk s2 = sdisk s1 ∧
      actions (recorder s2) = actions (recorder s1).
Proof.
  apply (proj2 teardown_idempotent (Qc_of_Z 6) (Qc_of_Z 7) "demo"%string demo_session).
  eexists. reflexivity.
Defined.

Example demo_teardown_log :
  actions (recorder (teardown (Qc_of_Z 6) "demo" demo_session).1) =
    [TypedText "abc" 3 (Qc_of_Z 4) false].
Proof. reflexivity. Qed.

Example demo_capture :
  let s' := (run_session demo_blur demo_blend true "demo" demo_events
               (mkSession new_recorder (set_stop_file false demo_disk) 0)).1 in
  screenshot_count s' = 2 ∧
  task_screenshots "demo" (sdisk s') !! "screen_20250101_120002_0001.png"%string =
    Some (apply_privacy_blur demo_blur demo_blend 9 35) ∧
  stop_file (sdisk s') = true.
Proof. by vm_compute. Qed.

Lemma privacy_frames_blurred_witness :
  task_screenshots "demo" (set_stop_file false demo_disk)
    !! "screen_20250101_120002_0001.png"%string = Some 137 ∨
  ∃ evs1 elapsed stamp frame evs2,
    demo_events = evs1 ++ EvTick elapsed stamp frame :: evs2 ∧
    "screen_20250101_120002_0001.png"%string =
      screen_name stamp
        (screenshot_count
           (run_session demo_blur demo_blend true "demo" evs1
              (mkSession new_recorder (set_stop_file false demo_disk) 0)).1) ∧
    137 = demo_blend frame (demo_blur 20 (demo_blur 35 frame)) (Qc_of_Z 9 / Qc_of_Z 10)%Qc.
Proof.
  apply (privacy_frames_blurred demo_blur demo_blend "demo" demo_events
           (mkSession new_recorder (set_stop_file false demo_disk) 0)
           (run_session demo_blur demo_blend true "demo" demo_events
              (mkSession new_recorder (set_stop_file false demo_disk) 0)).1
           (run_session demo_blur demo_blend true "demo" demo_events
              (mkSession new_recorder (set_stop_file false demo_disk) 0)).2
           (surjective_pairing _)
           "screen_20250101_120002_0001.png"%string 137).
  vm_compute. reflexivity.
Defined.

Example demo_sorted_pngs :
  sorted_pngs (mkTaskDir (Some (<["b.png" := 8]> (<["notes.txt" := 1]> (<["a.png" := 5]> ∅))))
                         None None) =
    [("a.png"%string, 5); ("b.png"%string, 8)].
Proof. by vm_compute. Qed.

(** The same task compiled for the estimate only and in full: only the
    full compilation sends a request and writes the skill files. *)
Example demo_compile :
  let quote := compile_recording demo_encode demo_answers "demo" true None demo_world in
  let full := compile_recording demo_encode demo_answers "demo" false None demo_world in
  quote.2 = Returned ∧ disk quote.1 = demo_disk ∧ api_calls quote.1 = [] ∧
  full.2 = Returned ∧
  (recordings (disk full.1) !! "demo"%string) ≫= skill_file = Some "# Skill"%string ∧
  platform_skills (disk full.1) !! ("~/.moltbot/skills"%string, "demo"%string) =
    Some "# Skill"%string ∧
  api_calls full.1 =
    [mkRequest "claude-sonnet-4-5-20250929" 4096
               [LabelBlock 1 2; ImageBlock "5"; LabelBlock 2 2; ImageBlock "8";
                PromptBlock [] false]].
Proof. by vm_compute. Qed.

Lemma compile_preconditions_witness :
  (∃ w', compile_recording demo_encode demo_answers "missing" false None demo_world =
           (w', Exited 1) ∧
         disk w' = disk demo_world ∧ api_calls w' = api_calls demo_world ∧
         ∃ what, out w' = out demo_world ++ [MsgError what]) ∧
  (∃ w', compile_recording demo_encode demo_answers "empty" false None demo_world =
           (w', Exited 1) ∧
         disk w' = disk demo_world ∧ api_calls w' = api_calls demo_world ∧
         ∃ what, out w' = out demo_world ++ [MsgError what]) ∧
  (compile_recording demo_encode demo_answers "demo" true None demo_world =
     (tell [MsgCostOnlyHint]
        (tell [MsgCompiling "demo" 2 2 0;
               MsgCost (total_cost (estimate_cost 2 0)) (input_tokens (estimate_cost 2 0))
                       (input_cost (estimate_cost 2 0)) (output_tokens (estimate_cost 2 0))
                       (output_cost (estimate_cost 2 0))] demo_world), Returned) ∧
   ∃ w' outcome profile,
     compile_recording demo_encode demo_answers "demo" false None demo_world = (w', outcome) ∧
     (outcome = Returned ∨ outcome = Raised "APIError") ∧
     profile ∈ named_profiles ∧
     api_calls w' =
       api_calls demo_world ++
       [mkRequest (model_id profile) 4096
                  (image_blocks demo_encode [("a.png"%string, 5); ("b.png"%string, 8)] ++
                   [PromptBlock [] false])]).
Proof.
  split; [|split].
  - apply (proj1 (compile_preconditions demo_encode demo_answers "missing" false None
                    demo_world)).
    reflexivity.
  - apply (proj1 (proj2 (compile_preconditions demo_encode demo_answers "empty" false None
                           demo_world))
             (mkTaskDir (Some ∅) None None)); reflexivity.
  - assert (Hpng : sorted_pngs (mkTaskDir (Some (<["b.png" := 8]> (<["a.png" := 5]> ∅)))
                                          None None) ≠ [])
      by (vm_compute; discriminate).
    exact (proj2 (proj2 (compile_preconditions demo_encode demo_answers "demo" false None
                           demo_world))
             (mkTaskDir (Some (<["b.png" := 8]> (<["a.png" := 5]> ∅))) None None)
             demo_world eq_refl eq_refl eq_refl Hpng).
Defined.

(** ** A whole recording *)

Section SessionFacts.

Context {Image : Type}.
Variable GaussianBlur : Z → Image → Image.
Variable blend : Image → Image → Qc → Image.
Variable transport_encode : Image → string.

Implicit Types (d : @Disk Image) (s : @Session Image) (w : @World Image).

Lemma mkdir_screenshots_task task d :
  is_Some (recordings (mkdir_screenshots task d) !! task).
Proof. unfold mkdir_screenshots. simpl. rewrite lookup_insert_eq. eauto. Qed.

Lemma write_screenshot_keeps_task task filename (img : Image) d d' :
  write_screenshot task filename img d = Ok d' → is_Some (recordings d' !! task).
Proof.
  unfold write_screenshot. destruct (recordings d !! task) as [td|]; [|done].
  destruct (screenshots_dir td); [|done]. intros [= <-]. simpl.
  rewrite lookup_insert_eq. eauto.
Qed.

(** The capture loop never removes the task directory. *)
Lemma run_session_keeps_task privacy_mode task evs s :
  is_Some (recordings (sdisk s) !! task) →
  is_Some (recordings (sdisk (run_session GaussianBlur blend privacy_mode task evs s).1)
             !! task).
Proof.
  revert s. induction evs as [|ev evs IH]; intros s Hs; [done|].
  destruct ev as [now element_info x y button pressed | now_flush now key |
                  | elapsed stamp frame | elapsed exn]; simpl.
  - by apply IH.
  - by apply IH.
  - apply IH. simpl. unfold cmd_stop. destruct (load_state _) as [st|]; [|done].
    by destruct (recording st).
  - destruct (stop_file (sdisk s)); [done|]. destruct (decide _); [done|].
    destruct (write_screenshot _ _ _ _) as [d|e] eqn:Hw; [|done].
    apply IH. simpl. by eapply write_screenshot_keeps_task.
  - destruct (stop_file (sdisk s)); [done|]. by destruct (decide _).
Qed.

(** Compilation does not touch the two session files. *)
Lemma compile_keeps_session_files (ans : Answers) task cost_only model_name w :
  let w' := (compile_recording transport_encode ans task cost_only model_name w).1 in
  state_file (disk w') = state_file (disk w) ∧ stop_file (disk w') = stop_file (disk w).
Proof.
  unfold compile_recording.
  destruct (setup_api_key_frame w) as (Hd & _ & _).
  destruct (setup_api_key w) as [have_key w1]. simpl in Hd.
  destruct have_key; simpl; [|by rewrite Hd].
  destruct (recordings (disk w1) !! task) as [td|] eqn:Htd; simpl; [|by rewrite Hd].
  destruct (sorted_pngs td); simpl; [by rewrite Hd|].
  destruct cost_only; simpl; [by rewrite Hd|].
  destruct (get_model_config _ _ model_name) as [[profile|] warnings]; simpl;
    [|by rewrite Hd].
  destruct (api_response ans) as [skill_content|]; simpl; [|by rewrite Hd].
  unfold write_skill. rewrite Htd. simpl. unfold install_to_moltbot.
  destruct (moltbot_base ans); simpl; [|by rewrite Hd].
  destruct (moltbot_typed ans), (moltbot_probe_error ans); simpl; by rewrite Hd.
Qed.

(** X28.  A recording that runs to its end, with or without the automatic
    compilation, leaves neither session file behind. *)
Lemma cmd_start_clears_session_files (ans : Answers) args consent blur_choice
    start evs t_end w w' :
  cmd_start GaussianBlur blend transport_encode ans args consent blur_choice
            start evs t_end w = (w', Returned) →
  session_files_absent (disk w').
Proof.
  unfold cmd_start.
  destruct (match load_state (disk w) with Some st => recording st | None => false end);
    [done|].
  destruct (negb (arg_yes args) && negb (says_yes consent)); [done|].
  set (privacy_mode := if arg_yes args then _ else _).
  set (d0 := mkdir_screenshots (arg_name args) (disk w)).
  assert (Hd0 : is_Some (recordings d0 !! arg_name args)) by apply mkdir_screenshots_task.
  destruct (if stop_file d0 then unlink_stop_file d0 else Ok d0) as [d1|e] eqn:Hunlink;
    [|done].
  assert (Hd1 : recordings d1 = recordings d0).
  { destruct (stop_file d0) eqn:Hstop; [|by injection Hunlink as <-].
    unfold unlink_stop_file in Hunlink. rewrite Hstop in Hunlink.
    by injection Hunlink as <-. }
  set (s0 := mkSession new_recorder (save_state (arg_name args) start d1) 0).
  pose proof (run_session_keeps_task privacy_mode (arg_name args) evs s0) as Hkeep.
  destruct (run_session GaussianBlur blend privacy_mode (arg_name args) evs s0)
    as [s1 raised]. simpl in Hkeep.
  destruct raised; [done|].
  destruct (teardown_twice t_end t_end (arg_name args) s1) as (s2 & Ht & Habs & _).
  { apply Hkeep. simpl. by rewrite Hd1. }
  rewrite Ht. destruct (arg_compile args).
  - intros Hc.
    pose proof (compile_keeps_session_files ans (arg_name args) false None
                  (tell (console (recorder s2)) (set_disk (sdisk s2) w))) as [Hs Hp].
    rewrite Hc in Hs, Hp. simpl in Hs, Hp. destruct Habs. split; congruence.
  - by intros [= <-].
Qed.

End SessionFacts.

(** * Further properties of the recorder *)

Lemma typed_characters_app log1 log2 :
  typed_characters (log1 ++ log2) = typed_characters log1 + typed_characters log2.
Proof.
  induction log1 as [|a log1 IH]; [done|]. destruct a; simpl; rewrite IH; lia.
Qed.

Lemma filter_length_snoc {A} (f : A → bool) (l : list A) (x : A) :
  length (filter (λ a, f a = true) (l ++ [x])) =
    length (filter (λ a, f a = true) l) + (if f x then 1 else 0).
Proof.
  rewrite filter_app, length_app. f_equal.
  rewrite filter_cons, filter_nil. destruct (decide (f x = true)) as [->|H]; [done|].
  by destruct (f x).
Qed.

Lemma filter_length_cons {A} (f : A → bool) (l : list A) (x : A) :
  length (filter (λ a, f a = true) (x :: l)) =
    (if f x then 1 else 0) + length (filter (λ a, f a = true) l).
Proof.
  rewrite filter_cons. destruct (decide (f x = true)) as [->|H]; [done|].
  by destruct (f x).
Qed.

Lemma on_click_log now element_info x y button pressed r :
  actions (on_click now element_info x y button pressed r) =
    actions r ++
    (if pressed then
       [Click x y button now element_info
              (match element_info with
               | Some e => click_is_sensitive e
               | None => false
               end)]
     else []).
Proof.
  unfold on_click. destruct pressed; [|by rewrite app_nil_r].
  destruct element_info as [e|]; [|done]. simpl. by destruct (click_is_sensitive e && _).
Qed.

Lemma on_click_buffer now element_info x y button pressed r :
  keystroke_buffer (on_click now element_info x y button pressed r) = keystroke_buffer r.
Proof.
  unfold on_click. destruct pressed; [|done].
  destruct element_info as [e|]; [|done]. simpl. by destruct (click_is_sensitive e && _).
Qed.

Lemma flush_log now r :
  ∃ new,
    actions (flush_keystroke_buffer now r) = actions r ++ new ∧
    typed_characters new = length (keystroke_buffer r) ∧
    filter (λ a, is_click_action a = true) new = [] ∧
    filter (λ a, is_special_action a = true) new = [] ∧
    Forall typed_text_ok new.
Proof.
  destruct (decide (keystroke_buffer r = [])) as [E|E].
  - exists []. rewrite flush_empty, E, app_nil_r by done. by repeat split.
  - eexists. rewrite flush_nonempty by done. simpl. split; [done|].
    split; [simpl; lia|]. split; [done|]. split; [done|].
    apply Forall_singleton. simpl.
    split; [destruct (keystroke_buffer r); [done | simpl; lia]|].
    destruct (has_sensitive_keyword _) eqn:Hs; [done|].
    by rewrite join_length.
Qed.

(** X4.  No keystroke is lost and none is counted twice: after the final
    flush the length fields of the [typed_text] entries add up to what
    they were before, plus the characters that were waiting in the buffer,
    plus one for every character key delivered since. *)
Theorem typed_characters_conserved ins now r :
  typed_characters (actions (flush_keystroke_buffer now (deliver_all ins r))) =
    typed_characters (actions r) + length (keystroke_buffer r) +
    length (filter (λ i, is_char_key i = true) ins).
Proof.
  unfold deliver_all. revert r.
  assert (Hflush : ∀ now r,
    typed_characters (actions (flush_keystroke_buffer now r)) =
      typed_characters (actions r) + length (keystroke_buffer r)).
  { intros t r. destruct (flush_log t r) as (new & -> & <- & _).
    apply typed_characters_app. }
  induction ins as [|i ins IH]; intros r; simpl.
  - rewrite Hflush. lia.
  - rewrite IH, filter_length_cons.
    destruct i as [t e x y b p | tf t [[c|]|key_name]]; simpl.
    + rewrite on_click_log, on_click_buffer, typed_characters_app.
      destruct p; simpl; lia.
    + rewrite length_app. simpl. lia.
    + lia.
    + assert (Hk : ∀ r', typed_characters
                 (actions (if bool_decide (key_name ∈ noisy_keys)
                           then say (MsgSpecial key_name) r' else r')) =
               typed_characters (actions r') ∧
               keystroke_buffer (if bool_decide (key_name ∈ noisy_keys)
                           then say (MsgSpecial key_name) r' else r') =
               keystroke_buffer r') by (intros r'; by destruct (bool_decide _)).
      destruct (Hk (append_action (SpecialKey key_name t) (flush_keystroke_buffer tf r)))
        as [-> ->].
      simpl. rewrite typed_characters_app, Hflush, flush_buffer_empty. simpl. lia.
Qed.

(** What one callback adds to the log. *)
Lemma deliver_log r i :
  ∃ new,
    actions (deliver r i) = actions r ++ new ∧
    length (filter (λ a, is_click_action a = true) new) = (if is_press i then 1 else 0) ∧
    length (filter (λ a, is_special_action a = true) new) =
      (if is_special_key i then 1 else 0) ∧
    Forall typed_text_ok new.
Proof.
  destruct i as [t e x y b p | tf t [[c|]|key_name]]; simpl.
  - rewrite on_click_log. eexists. split; [done|].
    destruct p; simpl; (split; [done|]); (split; [done|]);
      [by apply Forall_singleton | by apply Forall_nil].
  - exists []. rewrite app_nil_r. by repeat split.
  - exists []. rewrite app_nil_r. by repeat split.
  - destruct (flush_log tf r) as (new & Hnew & _ & Hc & Hs & Hok).
    exists (new ++ [SpecialKey key_name t]).
    split; [destruct (bool_decide _); simpl; by rewrite Hnew, <-app_assoc|].
    rewrite !filter_app, !length_app, Hc, Hs. simpl.
    repeat split; [done..|]. apply Forall_app. split; [done|]. by apply Forall_singleton.
Qed.

(** X5.  Every press is logged once: the callbacks add one [click] entry
    per button press (none per release) and one [special_key] entry per
    special key, whatever else happens in between. *)
Theorem presses_logged_once ins r :
  length (filter (λ a, is_click_action a = true) (actions (deliver_all ins r))) =
    length (filter (λ a, is_click_action a = true) (actions r)) +
    length (filter (λ i, is_press i = true) ins) ∧
  length (filter (λ a, is_special_action a = true) (actions (deliver_all ins r))) =
    length (filter (λ a, is_special_action a = true) (actions r)) +
    length (filter (λ i, is_special_key i = true) ins).
Proof.
  unfold deliver_all. revert r. induction ins as [|i ins IH]; intros r; simpl.
  - split; lia.
  - destruct (IH (deliver r i)) as [-> ->].
    destruct (deliver_log r i) as (new & -> & Hc & Hs & _).
    rewrite !filter_app, !length_app, Hc, Hs, !filter_length_cons. split; lia.
Qed.

(** ** Invariants of a whole recording *)

Section RecordingInvariants.

Context {Image : Type}.
Variable GaussianBlur : Z → Image → Image.
Variable blend : Image → Image → Qc → Image.

Implicit Types (d : @Disk Image) (s : @Session Image).

(** What holds of the recorder before the loop, and is kept by the two
    callbacks, by the flush and by the loop's own messages, holds when the
    loop ends and when the teardown is over. *)
Lemma run_session_recorder_inv (P : Recorder → Prop) privacy_mode task evs s :
  (∀ r i, P r → P (deliver r i)) →
  (∀ m r, loop_message m = true → P r → P (say m r)) →
  P (recorder s) →
  P (recorder (run_session GaussianBlur blend privacy_mode task evs s).1).
Proof.
  intros Hdel Hsay. revert s. induction evs as [|ev evs IH]; intros s Hs; simpl.
  - by apply Hsay.
  - destruct ev as [now element_info x y button pressed | now_flush now key |
                    | elapsed stamp frame | elapsed exn].
    + apply IH. simpl. apply (Hdel _ (InClick now element_info x y button pressed) Hs).
    + apply IH. simpl. apply (Hdel _ (InKey now_flush now key) Hs).
    + by apply IH.
    + destruct (stop_file (sdisk s)); [by apply Hsay|].
      destruct (decide _); [by apply Hsay|].
      destruct (write_screenshot _ _ _ _); [|done].
      apply IH. simpl. by apply Hsay.
    + destruct (stop_file (sdisk s)); [by apply Hsay|].
      destruct (decide _); [by apply Hsay | done].
Qed.

Lemma recorded_inv (P : Recorder → Prop) privacy_mode task evs t_end s :
  (∀ r i, P r → P (deliver r i)) →
  (∀ now r, P r → P (flush_keystroke_buffer now r)) →
  (∀ m r, loop_message m = true → P r → P (say m r)) →
  P (recorder s) →
  P (recorded GaussianBlur blend privacy_mode task evs t_end s).
Proof.
  intros Hdel Hflush Hsay Hs. unfold recorded, teardown.
  pose proof (run_session_recorder_inv P privacy_mode task evs s Hdel Hsay Hs) as H.
  destruct (run_session _ _ _ _ _ _) as [s1 raised]. simpl in *.
  destruct raised; [done|].
  destruct (write_actions _ _ _); simpl; [|by apply Hflush].
  destruct (clear_state _); simpl; [|by apply Hflush].
  apply Hsay; [done|]. by apply Hflush.
Qed.

Lemma warnings_say m r :
  warnings_shown (console (say m r)) =
    warnings_shown (console r) + (if is_sensitive_warning m then 1 else 0).
Proof. apply filter_length_snoc. Qed.

(** X1.  The advisory about sensitive fields is printed at most once in a
    recording, however many sensitive clicks there are. *)
Theorem sensitive_warning_at_most_once privacy_mode task evs t_end d :
  warnings_shown
    (console (recorded GaussianBlur blend privacy_mode task evs t_end
                (mkSession new_recorder d 0))) ≤ 1.
Proof.
  cut (warnings_shown
         (console (recorded GaussianBlur blend privacy_mode task evs t_end
                     (mkSession new_recorder d 0))) =
       if sensitive_warning_shown
            (recorded GaussianBlur blend privacy_mode task evs t_end
               (mkSession new_recorder d 0))
       then 1 else 0).
  { intros ->. destruct (sensitive_warning_shown _); lia. }
  apply (recorded_inv
           (λ r, warnings_shown (console r) =
                 if sensitive_warning_shown r then 1 else 0)); [| | |done].
  - intros r [t e x y b p | tf t [[c|]|key_name]] H; [|done|done|].
    + simpl. unfold on_click. destruct p; [|done]. destruct e as [e|]; simpl.
      * destruct (click_is_sensitive e) eqn:Hsens; simpl.
        -- destruct (sensitive_warning_shown r) eqn:Hshown; simpl.
           ++ rewrite Hshown. unfold warnings_shown in *. simpl.
              rewrite filter_length_snoc. simpl. lia.
           ++ unfold warnings_shown in *.
              rewrite !filter_length_snoc. simpl. lia.
        -- unfold warnings_shown in *. rewrite filter_length_snoc. simpl.
           rewrite H. destruct (sensitive_warning_shown r); lia.
      * unfold warnings_shown in *. rewrite filter_length_snoc. simpl.
        rewrite H. destruct (sensitive_warning_shown r); lia.
    + assert (Hf : warnings_shown (console (flush_keystroke_buffer tf r)) =
                   warnings_shown (console r) ∧
                   sensitive_warning_shown (flush_keystroke_buffer tf r) =
                   sensitive_warning_shown r).
      { destruct (decide (keystroke_buffer r = [])) as [E|E].
        - by rewrite flush_empty.
        - rewrite flush_nonempty by done. simpl. unfold warnings_shown.
          rewrite filter_length_snoc. simpl. split; [lia | done]. }
      destruct Hf as [Hf1 Hf2]. cbn [deliver on_key_press].
      destruct (bool_decide _); [rewrite warnings_say|]; simpl;
        rewrite ?Hf1, ?Hf2, H; destruct (sensitive_warning_shown r); lia.
  - intros now r H. destruct (decide (keystroke_buffer r = [])) as [E|E].
    + by rewrite flush_empty.
    + rewrite flush_nonempty by done. simpl. unfold warnings_shown in *.
      rewrite filter_length_snoc. simpl. rewrite H.
      destruct (sensitive_warning_shown r); lia.
  - intros m r Hm H. rewrite warnings_say. simpl. rewrite H.
    destruct m; try discriminate; simpl; destruct (sensitive_warning_shown r); lia.
Qed.

(** X2.  The log only grows during a recording: what was logged stays
    where it is, in its order, up to and including the teardown. *)
Theorem action_log_append_only privacy_mode task evs t_end s :
  actions (recorder s) `prefix_of`
    actions (recorded GaussianBlur blend privacy_mode task evs t_end s).
Proof.
  apply (recorded_inv (λ r, actions (recorder s) `prefix_of` actions r)); [| | |done].
  - intros r i Hr. destruct (deliver_log r i) as (new & -> & _).
    by apply prefix_app_r.
  - intros now r Hr. destruct (flush_log now r) as (new & -> & _).
    by apply prefix_app_r.
  - by intros m r _ Hr.
Qed.

(** X3.  Every [typed_text] entry of a recording stands for at least one
    typed character, holds either the text as typed or, marked sensitive,
    the redaction marker, and in no case a text with a sensitive keyword
    in it. *)
Theorem stored_typed_text_clean privacy_mode task evs t_end d :
  Forall typed_text_ok
    (actions (recorded GaussianBlur blend privacy_mode task evs t_end
                (mkSession new_recorder d 0))).
Proof.
  apply (recorded_inv (λ r, Forall typed_text_ok (actions r))).
  - intros r i Hr. destruct (deliver_log r i) as (new & -> & _ & _ & Hnew).
    by apply Forall_app.
  - intros now r Hr. destruct (flush_log now r) as (new & -> & _ & _ & _ & Hnew).
    by apply Forall_app.
  - by intros m r _ Hr.
  - by apply Forall_nil.
Qed.

(** X7.  Whenever the capture loop ends, the keystroke buffer is empty
    exactly if no start time is held: the flush never has to invent a
    start time for characters that are waiting. *)
Theorem buffer_consistent_throughout privacy_mode task evs d :
  buffer_consistent
    (recorder (run_session GaussianBlur blend privacy_mode task evs
                 (mkSession new_recorder d 0)).1).
Proof.
  apply (run_session_recorder_inv buffer_consistent); [| |done].
  - intros r [t e x y b p | tf t key] Hr.
    + by apply buffer_consistent_click.
    + by apply buffer_consistent_key.
  - by intros m r _ Hr.
Qed.

End RecordingInvariants.

(** ** Console preview *)

Lemma slice_to_length n s :
  String.length (Str.slice_to n s) = n `min` String.length s.
Proof.
  revert s. induction n as [|n IH]; intros [|c s]; simpl; [done..|].
  by rewrite IH.
Qed.

Lemma string_app_length (a b : string) :
  String.length (a +:+ b) = String.length a + String.length b.
Proof. induction a as [|c a IH]; simpl; [done|]. by rewrite IH. Qed.

(** X6.  What a flush prints of the typed text is never longer than 20
    characters: the marker for a sensitive text, the text itself up to 20
    characters, and the first 17 characters with three dots otherwise. *)
Theorem typed_preview_bounded now r :
  keystroke_buffer r ≠ [] →
  ∃ display_text is_sensitive,
    console (flush_keystroke_buffer now r) =
      console r ++ [MsgTyped display_text is_sensitive] ∧
    String.length display_text ≤ 20 ∧
    (is_sensitive = true → display_text = REDACTED) ∧
    (is_sensitive = false → String.length (Str.join (keystroke_buffer r)) ≤ 20 →
     display_text = Str.join (keystroke_buffer r)) ∧
    (is_sensitive = false → 20 < String.length (Str.join (keystroke_buffer r)) →
     display_text = Str.slice_to 17 (Str.join (keystroke_buffer r)) +:+ "...").
Proof.
  intros Hne. rewrite flush_nonempty by done. simpl.
  eexists _, _. split; [done|].
  destruct (has_sensitive_keyword _); cbv iota.
  - split; [simpl; lia|]. split; [done|]. split; intros; discriminate.
  - unfold preview.
    destruct (Nat.leb_spec (String.length (Str.join (keystroke_buffer r))) 20) as [Hle|Hgt].
    + split; [done|]. split; [done|]. split; [done|]. intros; lia.
    + split.
      * rewrite string_app_length, slice_to_length.
        change (String.length "...") with 3. lia.
      * split; [done|]. split; [intros; lia | done].
Qed.

Lemma typed_preview_bounded_witness :
  ∃ display_text is_sensitive,
    console (flush_keystroke_buffer 1
               (mkRecorder [] false (list_ascii_of_string "the quick brown fox jumps") None [])) =
      [] ++ [MsgTyped display_text is_sensitive] ∧
    String.length display_text ≤ 20 ∧
    (is_sensitive = true → display_text = REDACTED) ∧
    (is_sensitive = false →
     String.length (Str.join (list_ascii_of_string "the quick brown fox jumps")) ≤ 20 →
     display_text = Str.join (list_ascii_of_string "the quick brown fox jumps")) ∧
    (is_sensitive = false →
     20 < String.length (Str.join (list_ascii_of_string "the quick brown fox jumps")) →
     display_text =
       Str.slice_to 17 (Str.join (list_ascii_of_string "the quick brown fox jumps")) +:+ "...").
Proof.
  apply (typed_preview_bounded 1%Qc
           (mkRecorder [] false (list_ascii_of_string "the quick brown fox jumps") None [])).
  discriminate.
Defined.

(** * Further properties of the compilation front end *)

(** ** Sampler *)

Lemma stride_from_sublist {A} (step k : nat) (l : list A) :
  stride_from step k l `sublist_of` l.
Proof.
  revert k. induction l as [|x l IH]; intros k; simpl; [done|].
  destruct k; [by apply sublist_skip | by apply sublist_cons].
Qed.

(** X8.  The sampler only selects: what it returns is a sub-sequence of
    the files it was given, in their order, of length min(size, 25), it
    repeats no file, and it always starts with the first file. *)
Theorem sample_is_subsequence {A} (files : list A) :
  sample_screenshots files `sublist_of` files ∧
  length (sample_screenshots files) = length files `min` 25 ∧
  (NoDup files → NoDup (sample_screenshots files)) ∧
  head (sample_screenshots files) = head files.
Proof.
  assert (Hsub : sample_screenshots files `sublist_of` files).
  { unfold sample_screenshots. destruct (_ <? _); [|done].
    etrans; [apply sublist_take | apply stride_from_sublist]. }
  split; [done|]. split; [|split].
  - destruct (decide (length files ≤ 25)) as [H|H].
    + rewrite sample_small by done. lia.
    + rewrite sample_large_length by lia. lia.
  - intros Hnd. by eapply sublist_NoDup.
  - destruct (decide (length files ≤ 25)) as [H|H].
    + by rewrite sample_small.
    + rewrite !head_lookup, sample_large_lookup by lia. done.
Qed.

(** ** Cost estimate *)






(** X10.  Because at most 25 images are ever sent, the input tokens of
    the estimate that [compile_recording] shows are fixed by the number of
    screenshots, capped at 25, and the number of actions: 1600 per selected
    image plus 500 plus 20 per action, hence at most 40,500 plus 20 per
    action, however many screenshots were taken.  Token counts are
    integers, the same in the exact and in the binary64 estimate. *)
Theorem compile_estimate_bounded {A} (files : list A) (log : list Action) :
  let cost := estimate_cost_binary64 (Z.of_nat (length (sample_screenshots files)))
                                     (Z.of_nat (length log)) in
  f_input_tokens cost =
    (1600 * Z.of_nat (length files `min` 25) + 500 + 20 * Z.of_nat (length log))%Z ∧
  (f_input_tokens cost ≤ 40500 + 20 * Z.of_nat (length log))%Z ∧
  f_input_tokens cost =
    input_tokens (estimate_cost (Z.of_nat (length (sample_screenshots files)))
                                (Z.of_nat (length log))).
Proof.
  intros cost. unfold cost. rewrite sample_length. simpl. lia.
Qed.

(** ** Model profiles *)

(** X11.  The model name is taken from the argument, else from the
    environment variable MIMIC_MODEL, else from the configuration file, an
    empty name counting as absent at each step: resolving with all three
    present is resolving the first of them that is not empty. *)
Theorem model_name_precedence (environ : gmap string string) (config : Config) model_name :
  get_model_config environ config model_name =
    get_model_config ∅ empty_config
      (first_truthy model_name
         (first_truthy (environ !! "MIMIC_MODEL"%string) (cfg_model config))).
Proof.
  unfold get_model_config, first_truthy. rewrite lookup_empty.
  destruct model_name as [[|c1 m1]|], (environ !! "MIMIC_MODEL"%string) as [[|c2 m2]|],
    (cfg_model config) as [[|c3 m3]|]; reflexivity.
Qed.

(** ** API key *)

Section ApiKeyFacts.

Context {Image : Type}.
Implicit Types (w : @World Image).

Lemma get_api_key_truthy w k :
  get_api_key w = Some k → Str.truthy (Some k) = true.
Proof.
  unfold get_api_key, first_truthy.
  repeat match goal with
         | |- context [if Str.truthy ?o then _ else _] =>
             let E := fresh "E" in destruct (Str.truthy o) eqn:E
         | |- context [match moltbot_config_file ?d with _ => _ end] =>
             destruct (moltbot_config_file d)
         end; intros H; try discriminate; by rewrite <-H.
Qed.

(** X12.  The API key is the first non-empty one among the environment
    variable, Moltbot's three configuration entries and Mimic's own
    configuration, in this order; it is never the empty string, and there
    is none exactly when all five places are empty or absent. *)
Theorem api_key_first_source w :
  match get_api_key w with
  | Some k =>
      k ≠ EmptyString ∧
      ∃ before after,
        api_key_sources w = before ++ Some k :: after ∧
        Forall (λ o, Str.truthy o = false) before
  | None => Forall (λ o, Str.truthy o = false) (api_key_sources w)
  end.
Proof.
  destruct w as [env [sf st cf mcf recs plat] o api].
  unfold get_api_key, api_key_sources, load_config, first_truthy. simpl.
  destruct (env !! "ANTHROPIC_API_KEY"%string) as [[|c0 k0]|];
    destruct mcf as [[[[|c1 k1]|] [[|c2 k2]|] [[|c3 k3]|]]|];
    destruct cf as [[m [[|c4 k4]|] sd]|]; simpl;
    first
      [ by repeat constructor
      | split; [done|];
        first [ by eexists [], _; split; [reflexivity | repeat constructor]
              | by eexists [_], _; split; [reflexivity | repeat constructor]
              | by eexists [_; _], _; split; [reflexivity | repeat constructor]
              | by eexists [_; _; _], _; split; [reflexivity | repeat constructor]
              | by eexists [_; _; _; _], _; split; [reflexivity | repeat constructor] ] ].
Qed.

(** X13.  [setup_api_key] succeeds exactly when a key can be found; it
    then leaves that key in the environment variable, where the client
    library reads it, and never replaces a key that is already there.  It
    touches nothing else, and running it again changes nothing. *)
Theorem setup_api_key_exports w :
  disk (setup_api_key w).2 = disk w ∧
  ((setup_api_key w).1 = true ↔ is_Some (get_api_key w)) ∧
  ((setup_api_key w).1 = true →
   (environ (setup_api_key w).2 : gmap string string) !! "ANTHROPIC_API_KEY"%string
     = get_api_key w) ∧
  ((setup_api_key w).1 = false → (setup_api_key w).2 = w) ∧
  (Str.truthy (environ w !! "ANTHROPIC_API_KEY"%string) = true →
   (setup_api_key w).2 = w) ∧
  setup_api_key (setup_api_key w).2 = setup_api_key w.
Proof.
  split; [apply setup_api_key_frame|].
  unfold setup_api_key.
  destruct (Str.truthy (environ w !! "ANTHROPIC_API_KEY"%string)) eqn:Henv.
  - simpl. assert (Hget : get_api_key w = environ w !! "ANTHROPIC_API_KEY"%string)
      by (unfold get_api_key; by rewrite Henv).
    rewrite Hget, Henv.
    destruct (environ w !! "ANTHROPIC_API_KEY"%string) as [k|] eqn:Hk; [|done].
    repeat split; eauto.
  - destruct (get_api_key w) as [k|] eqn:Hget.
    + rewrite (get_api_key_truthy _ _ Hget). simpl.
      rewrite lookup_insert_eq, (get_api_key_truthy _ _ Hget).
      repeat split; eauto; done.
    + simpl. rewrite Henv, Hget.
      repeat split; try done; try (by intros [? ?]).
Qed.

End ApiKeyFacts.

(** ** The request *)

Section RequestFacts.

Context {Image : Type}.
Variable transport_encode : Image → string.

Implicit Types (d : @Disk Image) (w : @World Image) (td : @TaskDir Image).

#[local] Instance name_le_decision : RelDecision (@name_le Image) := name_le_dec.

#[local] Instance name_le_total : Total (@name_le Image).
Proof. intros a b. apply String.leb_total. Qed.

(** X14.  The screenshots of a task are the files of its directory whose
    name ends in ".png", each once, in the order of their names; other
    files in the directory are ignored. *)
Theorem sorted_pngs_spec td :
  Sorted name_le (sorted_pngs td) ∧
  NoDup (sorted_pngs td).*1 ∧
  ∀ filename img,
    (filename, img) ∈ sorted_pngs td ↔
    default ∅ (screenshots_dir td) !! filename = Some img ∧
    ends_with ".png" filename = true.
Proof.
  unfold sorted_pngs. split; [apply Sorted_merge_sort, _|]. split.
  - rewrite merge_sort_Permutation.
    apply (sublist_NoDup _ (map_to_list (default ∅ (screenshots_dir td))).*1);
      [apply NoDup_fst_map_to_list | apply fmap_sublist, sublist_filter].
  - intros filename img. rewrite merge_sort_Permutation.
    rewrite list_elem_of_filter, elem_of_map_to_list. simpl. tauto.
Qed.











(** X17.  When the model service fails, nothing is written: the disk is
    what it was before the compilation, and a full compilation does not
    return normally. *)
Theorem compile_failure_writes_nothing (ans : Answers) task cost_only model_name w :
  api_response ans = None →
  disk (compile_recording transport_encode ans task cost_only model_name w).1 = disk w ∧
  (cost_only = false →
   (compile_recording transport_encode ans task cost_only model_name w).2 ≠ Returned).
Proof.
  intros Hans. unfold compile_recording.
  destruct (setup_api_key_frame w) as (Hd & _ & _).
  destruct (setup_api_key w) as [have_key w1]. simpl in Hd.
  destruct have_key; simpl; [|done].
  destruct (recordings (disk w1) !! task) as [td|]; [|done].
  destruct (sorted_pngs td); [done|].
  destruct cost_only; simpl; [done|].
  destruct (get_model_config _ _ model_name) as [[profile|] warnings]; simpl; [|done].
  by rewrite Hans.
Qed.

End RequestFacts.

(** ** The capture loop on disk *)

Section CaptureFacts.

Context {Image : Type}.
Variable GaussianBlur : Z → Image → Image.
Variable blend : Image → Image → Qc → Image.
Variable transport_encode : Image → string.

Implicit Types (d : @Disk Image) (s : @Session Image) (w : @World Image).

Lemma cmd_stop_disk d :
  (cmd_stop d).1 = d ∨ (cmd_stop d).1 = set_stop_file true d.
Proof.
  unfold cmd_stop. destruct (load_state d) as [st|]; [|by left].
  destruct (recording st); [by right | by left].
Qed.

(** Once the stop signal is on disk the loop captures nothing more. *)
Lemma run_session_stopped privacy_mode task evs s :
  stop_file (sdisk s) = true →
  (run_session GaussianBlur blend privacy_mode task evs s).2 = None ∧
  screenshot_count (run_session GaussianBlur blend privacy_mode task evs s).1 =
    screenshot_count s ∧
  recordings (sdisk (run_session GaussianBlur blend privacy_mode task evs s).1) =
    recordings (sdisk s).
Proof.
  revert s. induction evs as [|ev evs IH]; intros s Hstop; [done|].
  destruct ev as [now element_info x y button pressed | now_flush now key |
                  | elapsed stamp frame | elapsed exn]; simpl.
  - exact (IH (mkSession _ (sdisk s) (screenshot_count s)) Hstop).
  - exact (IH (mkSession _ (sdisk s) (screenshot_count s)) Hstop).
  - destruct (cmd_stop_disk (sdisk s)) as [E|E].
    + destruct (IH (mkSession (recorder s) (cmd_stop (sdisk s)).1 (screenshot_count s)))
        as (H1 & H2 & H3); [simpl; by rewrite E|].
      rewrite H1, H2, H3. simpl. by rewrite E.
    + destruct (IH (mkSession (recorder s) (cmd_stop (sdisk s)).1 (screenshot_count s)))
        as (H1 & H2 & H3); [simpl; by rewrite E|].
      rewrite H1, H2, H3. simpl. by rewrite E.
  - by rewrite Hstop.
  - by rewrite Hstop.
Qed.

(** X18.  A stop request made while the session is being recorded ends
    the capture: whatever follows, not one more screenshot is written or
    counted, and the loop ends without an error. *)
Theorem stop_request_ends_capture privacy_mode task rest s st :
  load_state (sdisk s) = Some st → recording st = true →
  (run_session GaussianBlur blend privacy_mode task (EvStop :: rest) s).2 = None ∧
  screenshot_count (run_session GaussianBlur blend privacy_mode task (EvStop :: rest) s).1 =
    screenshot_count s ∧
  recordings (sdisk (run_session GaussianBlur blend privacy_mode task (EvStop :: rest) s).1) =
    recordings (sdisk s).
Proof.
  intros Hst Hrec. simpl.
  assert (E : (cmd_stop (sdisk s)).1 = set_stop_file true (sdisk s))
    by (unfold cmd_stop; by rewrite Hst, Hrec).
  destruct (run_session_stopped privacy_mode task rest
              (mkSession (recorder s) (cmd_stop (sdisk s)).1 (screenshot_count s)))
    as (H1 & H2 & H3); [simpl; by rewrite E|].
  rewrite H1, H2, H3. simpl. by rewrite E.
Qed.

Lemma deliver_console r i :
  ∃ new, console (deliver r i) = console r ++ new ∧
         Forall (λ m, loop_message m = false) new.
Proof.
  destruct i as [t e x y b p | tf t [[c|]|key_name]]; simpl.
  - unfold on_click. destruct p; [|exists []; by rewrite app_nil_r].
    destruct e as [e|]; simpl.
    + destruct (click_is_sensitive e && _); simpl.
      * eexists [_; _]. rewrite <-app_assoc. split; [done|]. by repeat constructor.
      * eexists [_]. split; [done|]. by repeat constructor.
    + eexists [_]. split; [done|]. by repeat constructor.
  - exists []. by rewrite app_nil_r.
  - exists []. by rewrite app_nil_r.
  - assert (Hf : ∃ new, console (flush_keystroke_buffer tf r) = console r ++ new ∧
                        Forall (λ m, loop_message m = false) new).
    { destruct (decide (keystroke_buffer r = [])) as [E|E].
      - exists []. by rewrite flush_empty, app_nil_r.
      - rewrite flush_nonempty by done. simpl. eexists [_]. split; [done|].
        by repeat constructor. }
    destruct Hf as (new & Hnew & Hok).
    destruct (bool_decide _); simpl; rewrite Hnew.
    + exists (new ++ [MsgSpecial key_name]). rewrite <-app_assoc. split; [done|].
      apply Forall_app. split; [done|]. by repeat constructor.
    + by exists new.
Qed.

Lemma not_loop_message_in_time ms :
  Forall (λ m, loop_message m = false) ms →
  Forall screenshot_in_time ms ∧
  length (filter (λ m, is_screenshot_message m = true) ms) = 0.
Proof.
  induction 1 as [|m ms Hm _ [IH1 IH2]]; [done|]. split.
  - constructor; [|done]. by destruct m.
  - rewrite filter_length_cons, IH2. by destruct m.
Qed.

(** X19.  Every screenshot announced during a recording was taken before
    the 60 second limit, and the counter reported at the end is the number
    of screenshots announced. *)
Theorem screenshots_within_time_limit privacy_mode task evs d :
  let s' := (run_session GaussianBlur blend privacy_mode task evs
               (mkSession new_recorder d 0)).1 in
  Forall screenshot_in_time (console (recorder s')) ∧
  screenshot_count s' =
    length (filter (λ m, is_screenshot_message m = true) (console (recorder s'))).
Proof.
  cut (∀ s : @Session Image,
         Forall screenshot_in_time (console (recorder s)) ∧
         screenshot_count s =
           length (filter (λ m, is_screenshot_message m = true) (console (recorder s))) →
         let s' := (run_session GaussianBlur blend privacy_mode task evs s).1 in
         Forall screenshot_in_time (console (recorder s')) ∧
         screenshot_count s' =
           length (filter (λ m, is_screenshot_message m = true) (console (recorder s')))).
  { intros H. apply H. simpl. split; [constructor | done]. }
  assert (Hsay : ∀ m (s : @Session Image),
    is_screenshot_message m = false →
    Forall screenshot_in_time (console (recorder s)) ∧
    screenshot_count s =
      length (filter (λ m, is_screenshot_message m = true) (console (recorder s))) →
    Forall screenshot_in_time (console (say m (recorder s))) ∧
    screenshot_count s =
      length (filter (λ m, is_screenshot_message m = true) (console (say m (recorder s))))).
  { intros m s Hm [H1 H2]. simpl. rewrite filter_length_snoc, Hm. split; [|lia].
    apply Forall_app. split; [done|]. constructor; [|done]. by destruct m. }
  assert (Hdel : ∀ i (s : @Session Image),
    Forall screenshot_in_time (console (recorder s)) ∧
    screenshot_count s =
      length (filter (λ m, is_screenshot_message m = true) (console (recorder s))) →
    Forall screenshot_in_time (console (deliver (recorder s) i)) ∧
    screenshot_count s =
      length (filter (λ m, is_screenshot_message m = true)
                (console (deliver (recorder s) i)))).
  { intros i s [H1 H2]. destruct (deliver_console (recorder s) i) as (new & -> & Hnew).
    destruct (not_loop_message_in_time new Hnew) as [Hn1 Hn2].
    rewrite filter_app, length_app, Hn2. split; [by apply Forall_app | lia]. }
  induction evs as [|ev evs IH]; intros s Hs; simpl.
  - by apply Hsay.
  - destruct ev as [now element_info x y button pressed | now_flush now key |
                    | elapsed stamp frame | elapsed exn].
    + apply IH. simpl. apply (Hdel (InClick now element_info x y button pressed) s Hs).
    + apply IH. simpl. apply (Hdel (InKey now_flush now key) s Hs).
    + by apply IH.
    + destruct (stop_file (sdisk s)); [by apply Hsay|].
      destruct (decide _) as [?|Hlt]; [by apply Hsay|].
      destruct (write_screenshot _ _ _ _); [|done].
      apply IH. simpl. destruct Hs as [H1 H2]. rewrite filter_length_snoc. simpl.
      split; [|lia]. apply Forall_app. split; [done|]. constructor; [|done].
      simpl. by apply Qclt_nge.
    + destruct (stop_file (sdisk s)); [by apply Hsay|].
      destruct (decide _) as [?|Hlt]; [by apply Hsay | done].
Qed.

Lemma only_screenshots_added_refl task d : only_screenshots_added task d d.
Proof. by repeat split. Qed.

Lemma only_screenshots_added_trans task d1 d2 d3 :
  only_screenshots_added task d1 d2 → only_screenshots_added task d2 d3 →
  only_screenshots_added task d1 d3.
Proof.
  intros (A1 & A2 & A3 & A4 & A5 & A6 & A7 & A8) (B1 & B2 & B3 & B4 & B5 & B6 & B7 & B8).
  repeat split; try congruence.
  - intros other Hother. by rewrite B5, A5.
  - set_solver.
Qed.

Lemma only_screenshots_added_stop task d :
  only_screenshots_added task d (cmd_stop d).1.
Proof.
  destruct (cmd_stop_disk d) as [-> | ->]; by repeat split.
Qed.

Lemma only_screenshots_added_write task filename (img : Image) d d' :
  write_screenshot task filename img d = Ok d' → only_screenshots_added task d d'.
Proof.
  intros Hw. pose proof (write_screenshot_files _ _ _ _ _ Hw) as Hfiles.
  unfold write_screenshot in Hw.
  destruct (recordings d !! task) as [td|] eqn:Htd; [|done].
  destruct (screenshots_dir td) as [files|] eqn:Hdir; [|done].
  injection Hw as <-. repeat split; simpl.
  - intros other Hother. by rewrite lookup_insert_ne.
  - by rewrite lookup_insert_eq, Htd.
  - by rewrite lookup_insert_eq, Htd.
  - rewrite Hfiles, dom_insert. set_solver.
Qed.

(** X20.  The capture loop changes nothing on disk but the screenshot
    directory of the task being recorded, and there it only adds or
    replaces files: other recordings, the task's action log and skill, the
    configuration and the platform's skills are the same afterwards, and
    every screenshot name that existed still exists. *)
Theorem capture_only_adds_screenshots privacy_mode task evs s :
  only_screenshots_added task (sdisk s)
    (sdisk (run_session GaussianBlur blend privacy_mode task evs s).1).
Proof.
  revert s. induction evs as [|ev evs IH]; intros s; [apply only_screenshots_added_refl|].
  destruct ev as [now element_info x y button pressed | now_flush now key |
                  | elapsed stamp frame | elapsed exn]; simpl.
  - exact (IH (mkSession _ (sdisk s) (screenshot_count s))).
  - exact (IH (mkSession _ (sdisk s) (screenshot_count s))).
  - eapply only_screenshots_added_trans; [apply only_screenshots_added_stop|].
    exact (IH (mkSession (recorder s) (cmd_stop (sdisk s)).1 (screenshot_count s))).
  - destruct (stop_file (sdisk s)); [apply only_screenshots_added_refl|].
    destruct (decide _); [apply only_screenshots_added_refl|].
    destruct (write_screenshot _ _ _ _) as [d|e] eqn:Hw;
      [|apply only_screenshots_added_refl].
    eapply only_screenshots_added_trans; [by eapply only_screenshots_added_write|].
    exact (IH (mkSession _ d (S (screenshot_count s)))).
  - destruct (stop_file (sdisk s)); [apply only_screenshots_added_refl|].
    destruct (decide _); apply only_screenshots_added_refl.
Qed.





End CaptureFacts.

(** * Strings, file names and masking *)

Lemma string_app_cons (x : ascii) (a b : string) :
  String x a +:+ b = String x (a +:+ b).
Proof. reflexivity. Qed.

Lemma string_app_assoc (a b c : string) : (a +:+ b) +:+ c = a +:+ (b +:+ c).
Proof.
  induction a as [|x a IH]; [reflexivity|]. rewrite !string_app_cons. by f_equal.
Qed.

Lemma string_split (n : nat) (s : string) :
  n ≤ String.length s → ∃ a b, s = a +:+ b ∧ String.length a = n.
Proof.
  revert s. induction n as [|n IH]; intros s Hn.
  - by exists EmptyString, s.
  - destruct s as [|c s]; simpl in Hn; [lia|].
    destruct (IH s) as (a & b & -> & Ha); [lia|].
    exists (String c a), b. simpl. by rewrite Ha.
Qed.

Lemma string_app_inj (a a' b b' : string) :
  String.length a = String.length a' → a +:+ b = a' +:+ b' → a = a' ∧ b = b'.
Proof.
  revert a'. induction a as [|x a IH]; intros [|x' a'] Hlen H;
    try discriminate Hlen; [done|].
  rewrite !string_app_cons in H. injection H as -> H. simpl in Hlen.
  destruct (IH a') as [-> ->]; [lia | done | done].
Qed.

Lemma slice_to_app (a b : string) : Str.slice_to (String.length a) (a +:+ b) = a.
Proof.
  induction a as [|x a IH]; [reflexivity|]. rewrite string_app_cons. simpl. by f_equal.
Qed.

Lemma substring_all (b : string) : substring 0 (String.length b) b = b.
Proof. induction b as [|x b IH]; simpl; [done|]. by f_equal. Qed.

Lemma substring_app (a b : string) :
  substring (String.length a) (String.length b) (a +:+ b) = b.
Proof.
  induction a as [|x a IH]; [apply substring_all|]. rewrite string_app_cons. exact IH.
Qed.

Lemma ends_with_app (a suffix : string) : ends_with suffix (a +:+ suffix) = true.
Proof.
  unfold ends_with. rewrite string_app_length.
  replace (String.length a + String.length suffix - String.length suffix)
    with (String.length a) by lia.
  rewrite substring_app, String.eqb_refl, andb_true_r. apply Nat.leb_le. lia.
Qed.

(** X22.  The self-test never prints an API key in full length: a key of
    at most 14 characters is shown as three stars, a longer one as its
    first 10 and last 4 characters around three dots, whatever the number
    of characters in between. *)
Theorem mask_key_hides_middle (key : string) :
  (String.length key ≤ 14 → mask_key key = "***"%string) ∧
  (14 < String.length key →
   ∃ first middle last,
     key = first +:+ middle +:+ last ∧
     String.length first = 10 ∧ String.length last = 4 ∧
     1 ≤ String.length middle ∧
     mask_key key = first +:+ "..." +:+ last) ∧
  String.length (mask_key key) ≤ 17.
Proof.
  unfold mask_key. destruct (Nat.ltb_spec 14 (String.length key)) as [Hlong|Hshort].
  - destruct (string_split 10 key) as (first & rest & -> & Hfirst); [lia|].
    rewrite string_app_length in Hlong.
    destruct (string_split (String.length rest - 4) rest) as (middle & last & -> & Hmid);
      [lia|].
    rewrite string_app_length in Hlong, Hmid.
    assert (Hlast : String.length last = 4) by lia.
    assert (Hslice : Str.slice_to 10 (first +:+ middle +:+ last) = first)
      by (rewrite <-Hfirst; apply slice_to_app).
    assert (Hend : slice_last 4 (first +:+ middle +:+ last) = last).
    { unfold slice_last. rewrite <-string_app_assoc, string_app_length, Hlast.
      rewrite Nat.add_sub, <-Hlast. apply substring_app. }
    rewrite Hslice, Hend. split; [rewrite !string_app_length; lia|]. split.
    + intros _. exists first, middle, last. repeat split; [done | done | lia].
    + rewrite !string_app_length, Hfirst, Hlast. simpl. lia.
  - split; [done|]. split; [lia | simpl; lia].
Qed.

Lemma mask_key_hides_middle_witness :
  ∃ first middle last,
    "sk-ant-REDACTED"%string = first +:+ middle +:+ last ∧
    String.length first = 10 ∧ String.length last = 4 ∧
    1 ≤ String.length middle ∧
    mask_key "sk-ant-REDACTED" = first +:+ "..." +:+ last.
Proof.
  apply (proj1 (proj2 (mask_key_hides_middle "sk-ant-REDACTED"))).
  vm_compute. lia.
Defined.

(** ** Screenshot file names *)

Lemma zeros_length k : String.length (Str.join (replicate k "0"%char)) = k.
Proof. by rewrite join_length, length_replicate. Qed.

Lemma zeros_add a b :
  Str.join (replicate (a + b) "0"%char) =
    Str.join (replicate a "0"%char) +:+ Str.join (replicate b "0"%char).
Proof. induction a as [|a IH]; [reflexivity|]. simpl. rewrite string_app_cons. by f_equal. Qed.

Lemma pretty_N_go_head (x : N) (s : string) :
  (0 < x)%N → ∃ c t, pretty_N_go x s = String c t ∧ c ≠ "0"%char.
Proof.
  revert s. induction (N.lt_wf_0 x) as [x _ IH]; intros s Hx.
  rewrite pretty_N_go_step by done.
  destruct (decide (x `div` 10 = 0)%N) as [E|E].
  - rewrite E, pretty_N_go_0. eexists _, _. split; [done|].
    intros Hc. assert (x `mod` 10 = 0)%N as Hm.
    { apply pretty_N_char_inj; [by apply N.mod_lt | done | exact Hc]. }
    pose proof (N.div_mod x 10 ltac:(lia)) as Hdm. rewrite E, Hm in Hdm. lia.
  - apply IH; [apply N.div_lt; [done | reflexivity] | by apply N.neq_0_lt_0].
Qed.

Lemma pretty_nat_head (n : nat) :
  n ≠ 0 → ∃ c t, pretty n = String c t ∧ c ≠ "0"%char.
Proof.
  intros Hn. unfold pretty, pretty_nat, pretty, pretty_N.
  destruct (decide (N.of_nat n = 0)%N); [lia|]. apply pretty_N_go_head. lia.
Qed.

Lemma pretty_nat_nonempty (n : nat) : 1 ≤ String.length (pretty n).
Proof.
  destruct (decide (n = 0)) as [->|Hn]; [by vm_compute|].
  destruct (pretty_nat_head n Hn) as (c & t & -> & _). simpl. lia.
Qed.

(** The counter as [f"{count:04d}"] prints it. *)
Lemma padded_counter_inj (k1 k2 n1 n2 : nat) :
  Str.join (replicate k1 "0"%char) +:+ pretty n1 =
    Str.join (replicate k2 "0"%char) +:+ pretty n2 →
  n1 = n2.
Proof.
  assert (Hlt : ∀ (k m n1 n2 : nat),
    Str.join (replicate k "0"%char) +:+ pretty n1 =
      Str.join (replicate (k + S m) "0"%char) +:+ pretty n2 → False).
  { intros k m a b H. rewrite zeros_add, string_app_assoc in H.
    apply string_app_inj in H as [_ H]; [|done].
    simpl in H. rewrite string_app_cons in H.
    destruct (decide (a = 0)) as [->|Ha].
    - apply (f_equal String.length) in H. simpl in H.
      rewrite string_app_length in H. pose proof (pretty_nat_nonempty b).
      change (String.length (pretty 0)) with 1 in H. lia.
    - destruct (pretty_nat_head a Ha) as (c & t & E & Hc). rewrite E in H.
      by injection H as -> _. }
  intros H. destruct (Nat.lt_trichotomy k1 k2) as [Hk|[->|Hk]].
  - exfalso. apply (Hlt k1 (k2 - k1 - 1) n1 n2).
    by replace (k1 + S (k2 - k1 - 1)) with k2 by lia.
  - apply string_app_inj in H as [_ H]; [|done]. by apply (inj pretty).
  - exfalso. apply (Hlt k2 (k1 - k2 - 1) n2 n1).
    by replace (k2 + S (k1 - k2 - 1)) with k1 by lia.
Qed.

(** X23.  Two screenshots get the same file name only if they carry the
    same time stamp and the same counter (time stamps all have the length
    of the fixed strftime format); and every such name ends in ".png", so
    the compilation finds every file the capture loop writes. *)
Theorem screen_name_unique (stamp1 stamp2 : string) (n1 n2 : nat) :
  String.length stamp1 = String.length stamp2 →
  (screen_name stamp1 n1 = screen_name stamp2 n2 → stamp1 = stamp2 ∧ n1 = n2) ∧
  ends_with ".png" (screen_name stamp1 n1) = true.
Proof.
  intros Hlen. unfold screen_name. split.
  - intros H.
    apply string_app_inj in H as [_ H]; [|done].
    apply string_app_inj in H as [-> H]; [|done].
    apply string_app_inj in H as [_ H]; [|done].
    rewrite <-!string_app_assoc in H.
    assert (Hl := f_equal String.length H). rewrite !string_app_length in Hl.
    apply string_app_inj in H as [H _]; [|rewrite !string_app_length; simpl in Hl; lia].
    split; [done|]. by eapply padded_counter_inj.
  - rewrite <-!string_app_assoc. apply ends_with_app.
Qed.

Lemma screen_name_unique_witness :
  (screen_name "20250101_120000" 3 = screen_name "20250101_120002" 3 →
   "20250101_120000"%string = "20250101_120002"%string ∧ 3 = 3) ∧
  ends_with ".png" (screen_name "20250101_120000" 3) = true.
Proof. apply (screen_name_unique "20250101_120000" "20250101_120002" 3 3). reflexivity. Defined.

(** ** From capture to compilation *)

Section CaptureToCompile.

Context {Image : Type}.
Variable GaussianBlur : Z → Image → Image.
Variable blend : Image → Image → Qc → Image.

Implicit Types (d : @Disk Image) (s : @Session Image) (td : @TaskDir Image).

Lemma screen_name_png stamp n : ends_with ".png" (screen_name stamp n) = true.
Proof. unfold screen_name. rewrite <-!string_app_assoc. apply ends_with_app. Qed.

Lemma sorted_pngs_elem td filename img :
  (filename, img) ∈ sorted_pngs td ↔
  default ∅ (screenshots_dir td) !! filename = Some img ∧
  ends_with ".png" filename = true.
Proof.
  unfold sorted_pngs. rewrite merge_sort_Permutation.
  rewrite list_elem_of_filter, elem_of_map_to_list. simpl. tauto.
Qed.

Lemma captured_files_png privacy_mode task evs s filename img :
  task_screenshots task
    (sdisk (run_session GaussianBlur blend privacy_mode task evs s).1) !! filename = Some img →
  task_screenshots task (sdisk s) !! filename = Some img ∨
  ends_with ".png" filename = true.
Proof.
  revert s. induction evs as [|ev evs IH]; intros s Himg; [by left|].
  destruct ev as [now element_info x y button pressed | now_flush now key |
                  | elapsed stamp frame | elapsed exn]; simpl in Himg.
  - exact (IH (mkSession _ (sdisk s) (screenshot_count s)) Himg).
  - exact (IH (mkSession _ (sdisk s) (screenshot_count s)) Himg).
  - destruct (IH (mkSession (recorder s) (cmd_stop (sdisk s)).1 (screenshot_count s)) Himg)
      as [H|H]; [|by right].
    left. simpl in H. by rewrite cmd_stop_files in H.
  - destruct (stop_file (sdisk s)); [by left|].
    destruct (decide _); [by left|].
    destruct (write_screenshot _ _ _ _) as [d|e] eqn:Hw; [|by left].
    apply write_screenshot_files in Hw.
    destruct (IH _ Himg) as [H|H]; [|by right].
    simpl in H. rewrite Hw, lookup_insert in H. case_decide as Hname.
    + right. rewrite <-Hname. apply screen_name_png.
    + by left.
  - destruct (stop_file (sdisk s)); [by left|]. destruct (decide _); by left.
Qed.

(** X24.  What the capture loop writes, the compilation reads: every file
    found in the task's screenshot directory after the loop either was
    there before or is among the screenshots that [compile_recording]
    lists for the task. *)
Theorem captured_files_are_compiled privacy_mode task evs s td filename img :
  recordings (sdisk (run_session GaussianBlur blend privacy_mode task evs s).1) !! task
    = Some td →
  task_screenshots task
    (sdisk (run_session GaussianBlur blend privacy_mode task evs s).1) !! filename = Some img →
  task_screenshots task (sdisk s) !! filename = Some img ∨
  (filename, img) ∈ sorted_pngs td.
Proof.
  intros Htd Himg.
  destruct (captured_files_png privacy_mode task evs s filename img Himg) as [H|H];
    [by left|].
  right. apply sorted_pngs_elem. split; [|done].
  unfold task_screenshots in Himg. by rewrite Htd in Himg.
Qed.

End CaptureToCompile.

(** ** Platform skills directory *)

Section SkillsDirFacts.

Variable path_exists : string → bool.
Variable path_parent : string → string.
Variable expanduser : string → string.





End SkillsDirFacts.

(** * The further properties on the small instance *)

Lemma sample_is_subsequence_witness : NoDup (sample_screenshots (seq 0 100)).
Proof.
  apply (proj1 (proj2 (proj2 (sample_is_subsequence (seq 0 100))))).
  apply NoDup_seq.
Defined.

Lemma setup_api_key_exports_witness :
  (environ (setup_api_key demo_config_world).2 : gmap string string)
    !! "ANTHROPIC_API_KEY"%string = get_api_key demo_config_world.
Proof.
  apply (proj1 (proj2 (proj2 (setup_api_key_exports demo_config_world)))).
  reflexivity.
Defined.



Lemma compile_failure_writes_nothing_witness :
  disk (compile_recording demo_encode demo_no_answer "demo" false None demo_world).1 =
    disk demo_world ∧
  (false = false →
   (compile_recording demo_encode demo_no_answer "demo" false None demo_world).2 ≠ Returned).
Proof.
  apply (compile_failure_writes_nothing demo_encode demo_no_answer "demo" false None
           demo_world).
  reflexivity.
Defined.

Lemma stop_request_ends_capture_witness :
  (run_session demo_blur demo_blend true "demo"
     (EvStop :: [EvTick (Qc_of_Z 2) "20250101_120002" 9])
     (mkSession new_recorder (set_stop_file false demo_disk) 0)).2 = None ∧
  screenshot_count
    (run_session demo_blur demo_blend true "demo"
       (EvStop :: [EvTick (Qc_of_Z 2) "20250101_120002" 9])
       (mkSession new_recorder (set_stop_file false demo_disk) 0)).1 =
    screenshot_count (mkSession new_recorder (set_stop_file false demo_disk) 0) ∧
  recordings
    (sdisk (run_session demo_blur demo_blend true "demo"
              (EvStop :: [EvTick (Qc_of_Z 2) "20250101_120002" 9])
              (mkSession new_recorder (set_stop_file false demo_disk) 0)).1) =
    recordings (sdisk (mkSession new_recorder (set_stop_file false demo_disk) 0)).
Proof.
  apply (stop_request_ends_capture demo_blur demo_blend true "demo"
           [EvTick (Qc_of_Z 2) "20250101_120002" 9]
           (mkSession new_recorder (set_stop_file false demo_disk) 0)
           (mkSessionState "demo" 0 true)); reflexivity.
Defined.



Example demo_recording :
  let w' := (cmd_start demo_blur demo_blend demo_encode demo_answers demo_args
               EmptyString EmptyString (Qc_of_Z 0) demo_events (Qc_of_Z 6)
               demo_idle_world).1 in
  recordings (disk w') !! "demo"%string ≫= actions_file =
    Some [TypedText "x" 1 (Qc_of_Z 1) false] ∧
  size (task_screenshots "demo" (disk w')) = 2 ∧
  state_file (disk w') = None.
Proof. by vm_compute. Qed.

Lemma cmd_start_clears_session_files_witness :
  session_files_absent
    (disk (cmd_start demo_blur demo_blend demo_encode demo_answers demo_args
             EmptyString EmptyString (Qc_of_Z 0) demo_events (Qc_of_Z 6)
             demo_idle_world).1).
Proof.
  apply (cmd_start_clears_session_files demo_blur demo_blend demo_encode demo_answers
           demo_args EmptyString EmptyString (Qc_of_Z 0) demo_events (Qc_of_Z 6)
           demo_idle_world).
  vm_compute. reflexivity.
Defined.

Lemma captured_files_are_compiled_witness :
  task_screenshots "demo" (sdisk (mkSession new_recorder (set_stop_file false demo_disk) 0))
    !! "screen_20250101_120000_0000.png"%string =
    Some (apply_privacy_blur demo_blur demo_blend 7 35) ∨
  ("screen_20250101_120000_0000.png"%string, apply_privacy_blur demo_blur demo_blend 7 35) ∈
    sorted_pngs
      (default (mkTaskDir None None None)
         (recordings
            (sdisk (run_session demo_blur demo_blend true "demo" demo_events
                      (mkSession new_recorder (set_stop_file false demo_disk) 0)).1)
            !! "demo"%string)).
Proof.
  apply (captured_files_are_compiled demo_blur demo_blend true "demo" demo_events
           (mkSession new_recorder (set_stop_file false demo_disk) 0)).
  - vm_compute. reflexivity.
  - vm_compute. reflexivity.
Defined.


Example skills_dir_examples :
  let exists_ := λ p, String.eqb p "/opt/skills" || String.eqb p "/home/u/skills" in
  get_moltbot_skills_dir exists_ (λ p, p) (λ p, p)
    (<["MOLTBOT_SKILLS_DIR" := "/gone"]> ∅) (mkConfig None None (Some "/home/u/skills"))
    "/home/u/.moltbot/skills" "3" EmptyString =
    mkResolution (Some "/home/u/skills") None false ∧
  get_moltbot_skills_dir exists_ (λ p, p) (λ p, p)
    ∅ (mkConfig None None (Some "/gone")) "/opt/skills" "3" EmptyString =
    mkResolution (Some "/opt/skills") None false ∧
  get_moltbot_skills_dir exists_ (λ p, p) (λ p, p)
    ∅ empty_config "/home/u/.moltbot/skills" "1" "/srv/skills" =
    mkResolution (Some "/srv/skills") (Some (mkConfig None None (Some "/srv/skills"))) true ∧
  get_moltbot_skills_dir exists_ (λ p, p) (λ p, p)
    ∅ empty_config "/home/u/.moltbot/skills" "3" EmptyString =
    mkResolution None None true.
Proof. repeat split; by vm_compute. Qed.

(** * Sensitivity of clicks and element information *)

Lemma password_role_mentions elem_role :
  password_role elem_role = true →
  existsb (λ keyword, Str.contains keyword elem_role) SENSITIVE_KEYWORDS = true.
Proof.
  unfold password_role. intros H. apply bool_decide_eq_true in H.
  repeat (apply elem_of_cons in H as [->|H]; [by vm_compute|]).
  by apply elem_of_nil in H.
Qed.

(** X26.  A click is marked sensitive exactly when the name or the role
    of its element contains a sensitive keyword, case-insensitively: the
    separate test for password roles adds nothing, because each of those
    role names contains a keyword itself. *)
Theorem click_sensitive_iff (e : Element) :
  click_is_sensitive e = true ↔
  mentions_keyword (Str.or_else (name e) EmptyString) ∨
  mentions_keyword (Str.or_else (role e) EmptyString).
Proof.
  split; [|apply click_sensitive_of_mention].
  unfold click_is_sensitive, click_keyword_hit. intros H.
  apply orb_true_iff in H as [H|H].
  - apply existsb_exists in H as (k & Hk & H). apply list_elem_of_In in Hk.
    apply orb_true_iff in H as [H|H]; [left | right]; exists k;
      (split; [done|]); by apply contains_spec.
  - right. apply password_role_mentions in H.
    apply existsb_exists in H as (k & Hk & H). apply list_elem_of_In in Hk.
    exists k. split; [done|]. by apply contains_spec.
Qed.

Lemma has_element_info_app log1 log2 :
  has_element_info (log1 ++ log2) = has_element_info log1 || has_element_info log2.
Proof. apply existsb_app. Qed.

Lemma flush_no_element now r :
  has_element_info (actions (flush_keystroke_buffer now r)) = has_element_info (actions r).
Proof.
  destruct (decide (keystroke_buffer r = [])) as [E|E].
  - by rewrite flush_empty.
  - rewrite flush_nonempty by done. simpl.
    by rewrite has_element_info_app, orb_false_r.
Qed.

(** X27.  The prompt explains the element data exactly when some logged
    click carries it: a recording whose clicks all came without
    accessibility information never gets the note, and one press with it
    is enough. *)
Theorem element_note_iff_element_clicked ins now r :
  has_element_info (actions (flush_keystroke_buffer now (deliver_all ins r))) =
    has_element_info (actions r) || existsb brings_element ins.
Proof.
  rewrite flush_no_element. unfold deliver_all. revert r.
  induction ins as [|i ins IH]; intros r; simpl; [by rewrite orb_false_r|].
  rewrite IH, orb_assoc. f_equal.
  destruct i as [t e x y b p | tf t [[c|]|key_name]]; simpl.
  - rewrite on_click_log, has_element_info_app.
    destruct p, e; simpl; by rewrite ?orb_false_r.
  - by rewrite orb_false_r.
  - by rewrite orb_false_r.
  - replace (actions (if bool_decide (key_name ∈ noisy_keys)
                      then say (MsgSpecial key_name)
                             (append_action (SpecialKey key_name t)
                                (flush_keystroke_buffer tf r))
                      else append_action (SpecialKey key_name t)
                             (flush_keystroke_buffer tf r)))
      with (actions (flush_keystroke_buffer tf r) ++ [SpecialKey key_name t])
      by (by destruct (bool_decide _)).
    by rewrite has_element_info_app, flush_no_element, !orb_false_r.
Qed.
